(** * Computer sales management: the inventory engine of [app1.py]

    A shallow embedding of [ComputerInventory] (catalog, sale processing,
    reports) and the properties of its operations.

    Modelling choices, all taken from the source:
    - [stock] and [quantity] are Python [int]s: unbounded, so [Z];
    - prices are Python numbers ([float] by annotation).  Their arithmetic
      is kept behind the interface [Number]; no algebraic law is assumed,
      so every theorem of the section holds for whatever [+] and [*] do.
      An [int] that meets a price in a product is promoted first, and the
      promotion to [float] raises [OverflowError] for an [int] out of the
      range of the floats: [num_fits] says which [int]s can be promoted.
      Two instances are given, the [int]s and the binary64 floats;
    - [self.computers] is a Python [dict]: an insertion-ordered map with
      unique keys, here an association list with the dict's operations
      (the order is the one [values()] iterates in, which the sums use);
    - a [Computer] is a mutable object the catalog refers to.  The model
      holds it by value, one object per key: [computer.stock -= q] on the
      object found under a key is the write of the changed value under
      that key, which keeps its place.  One object under two keys is a
      state the model does not have; it cannot arise while every item is
      stored under its own [id] ([well_keyed]), and the theorems that
      speak of the other items of the catalog take that as a hypothesis;
    - [self.sales_history] is a list that only grows at its end;
    - [datetime.datetime.now()] is a reading of the machine's clock.  It is
      no argument of [process_sale]; the reading is the part of the
      environment the method depends on and is passed as [now];
    - a method is a function from the object's state to a result (a value
      or a raised exception) and the state it leaves behind. *)

From Stdlib Require Import ZArith NArith List String Bool Lia SpecFloat.
Import ListNotations.

Local Open Scope string_scope.
Local Open Scope Z_scope.

Set Implicit Arguments.

(** ** Numbers *)

(** What the code asks of a price: it can be multiplied with an [int]
    (after the usual promotion of the [int]) and added up, starting from
    the [int] 0 of [sum].  [num_fits n] says that the [int] [n] can be
    promoted; where it cannot, Python raises [OverflowError] instead of
    computing the product, and [num_of_int n] is not looked at. *)
Class Number (num : Type) := {
  num_of_int : Z -> num;
  num_fits : Z -> bool;
  num_add : num -> num -> num;
  num_mul : num -> num -> num
}.

(** Prices counted in whole units (cents, say): Python [int]s.  Nothing
    is promoted, and no [int] is too large. *)
#[export] Instance Number_Z : Number Z := {
  num_of_int := fun z => z;
  num_fits := fun _ => true;
  num_add := Z.add;
  num_mul := Z.mul
}.

(** Python [float]s: IEEE 754 binary64, with 53 bits of precision and
    rounding to nearest, ties to even. *)
Definition float := spec_float.

(** [float(n)] where it is defined: the nearest float. *)
Definition float_of_int (n : Z) : float := binary_normalize 53 1024 n 0 false.

(** [float(n)] is defined: the nearest float is no infinity.  Otherwise
    Python raises "int too large to convert to float". *)
Definition float_fits (n : Z) : bool :=
  match float_of_int n with
  | S754_infinity _ => false
  | _ => true
  end.

#[export] Instance Number_float : Number float := {
  num_of_int := float_of_int;
  num_fits := float_fits;
  num_add := SFadd 53 1024;
  num_mul := SFmul 53 1024
}.

(** ** Time *)

(** A naive [datetime]: microseconds elapsed since [datetime.min]. *)
Definition datetime := N.

Definition datetime_min : datetime := 0%N.

(** [a >= b] on datetimes. *)
Definition datetime_ge (a b : datetime) : bool := (b <=? a)%N.

(** ** Python dictionaries *)

Section Dict.
Variable V : Type.

Definition dict := list (string * V).

Definition dict_keys (d : dict) : list string := map fst d.

(** [d.values()], in insertion order. *)
Definition dict_values (d : dict) : list V := map snd d.

(** [d.get(k)]. *)
Fixpoint dict_get (k : string) (d : dict) : option V :=
  match d with
  | [] => None
  | (k', v) :: d' => if String.eqb k k' then Some v else dict_get k d'
  end.

(** [k in d]. *)
Definition dict_mem (k : string) (d : dict) : bool :=
  match dict_get k d with Some _ => true | None => false end.

(** [d[k] = v]: an existing key keeps its place, a new one goes last. *)
Fixpoint dict_set (k : string) (v : V) (d : dict) : dict :=
  match d with
  | [] => [(k, v)]
  | (k', v') :: d' =>
      if String.eqb k k' then (k', v) :: d' else (k', v') :: dict_set k v d'
  end.

(** [del d[k]] for a key that may be absent. *)
Fixpoint dict_del (k : string) (d : dict) : dict :=
  match d with
  | [] => []
  | (k', v') :: d' =>
      if String.eqb k k' then d' else (k', v') :: dict_del k d'
  end.

(** [len(d)]. *)
Definition dict_len (d : dict) : Z := Z.of_nat (List.length d).
End Dict.

(** ** Python's [sum] *)

(** [sum(xs)]: accumulate from the left, starting at 0. *)
Definition sum_int (xs : list Z) : Z := fold_left Z.add xs 0.

Definition sum_num {num} `{Number num} (xs : list num) : num :=
  fold_left num_add xs (num_of_int 0).

(** ** Data model *)

Inductive SaleType := WHOLESALE | RETAIL.

(** [sale_type.value]. *)
Definition SaleType_value (t : SaleType) : string :=
  match t with
  | WHOLESALE => "wholesale"
  | RETAIL => "retail"
  end.

(** [SaleType(s)]: the member with that value, if any. *)
Definition SaleType_of_value (s : string) : option SaleType :=
  if String.eqb s "wholesale" then Some WHOLESALE
  else if String.eqb s "retail" then Some RETAIL
  else None.

(** [sale_type == SaleType.WHOLESALE]. *)
Definition SaleType_eqb (a b : SaleType) : bool :=
  match a, b with
  | WHOLESALE, WHOLESALE | RETAIL, RETAIL => true
  | _, _ => false
  end.

(** The exceptions that leave the methods: the two they raise themselves
    and the one the promotion of an [int] raises. *)
Inductive exn :=
| ValueError (msg : string)
| OverflowError (msg : string).

(** The two failures of a sale, as the specification names them. *)
Definition ItemNotFound : exn := ValueError "Computer not found".
Definition InsufficientStock : exn := ValueError "Insufficient stock".

(** What the promotion of an [int] out of range raises. *)
Definition IntTooLarge : exn :=
  OverflowError "int too large to convert to float".

Inductive result (A : Type) :=
| Ok (a : A)
| Raise (e : exn).
Arguments Ok {A} a.
Arguments Raise {A} e.

(** ** Products of an [int] and a price *)

Section Products.
Context {num : Type} `{Number num}.

(** [x * n] for a price [x] and an [int] [n]. *)
Definition mul_num_int (x : num) (n : Z) : result num :=
  if num_fits n then Ok (num_mul x (num_of_int n)) else Raise IntTooLarge.

(** [n * x] for an [int] [n] and a price [x]. *)
Definition mul_int_num (n : Z) (x : num) : result num :=
  if num_fits n then Ok (num_mul (num_of_int n) x) else Raise IntTooLarge.

(** [sum(f(x) for x in xs)] from the running total [acc]: the terms are
    computed one by one as they are added, and the first one that raises
    ends the sum. *)
Fixpoint sum_gen {A : Type} (f : A -> result num) (xs : list A) (acc : num)
    : result num :=
  match xs with
  | [] => Ok acc
  | x :: xs' =>
      match f x with
      | Ok y => sum_gen f xs' (num_add acc y)
      | Raise e => Raise e
      end
  end.

End Products.

(** ** The inventory *)

Section Inventory.
Context {num : Type} `{Number num}.

Record Computer := {
  id : string;
  brand : string;
  model : string;
  specs : dict string;
  wholesale_price : num;
  retail_price : num;
  stock : Z
}.

(** [computer.stock = n] on a value: the same computer with another stock. *)
Definition set_stock (n : Z) (c : Computer) : Computer :=
  {| id := id c; brand := brand c; model := model c; specs := specs c;
     wholesale_price := wholesale_price c; retail_price := retail_price c;
     stock := n |}.

(** The dictionary a sale is recorded as, with its six keys. *)
Record SaleRecord := {
  date : datetime;
  computer_id : string;
  quantity : Z;
  sale_type : string;
  total_price : num;
  unit_price : num
}.

(** The attributes of a [ComputerInventory] object. *)
Record ComputerInventory := {
  computers : dict Computer;
  sales_history : list SaleRecord
}.

Record InventoryReport := {
  total_computers : Z;
  total_stock : Z;
  total_wholesale_value : num;
  total_retail_value : num
}.

Record SalesReport := {
  total_sales : Z;
  wholesale_revenue : num;
  retail_revenue : num;
  total_revenue : num
}.

(** *** Methods as state transformers *)

(** A method call: the result and the object as the call leaves it.  A
    raised exception does not undo what was written before it. *)
Definition method (A : Type) : Type :=
  ComputerInventory -> result A * ComputerInventory.

Definition ret {A} (a : A) : method A := fun self => (Ok a, self).

Definition raise {A} (e : exn) : method A := fun self => (Raise e, self).

Definition bind {A B} (m : method A) (k : A -> method B) : method B :=
  fun self =>
    match m self with
    | (Ok a, self') => k a self'
    | (Raise e, self') => (Raise e, self')
    end.

(** A computation that does not touch [self]. *)
Definition lift {A} (x : result A) : method A := fun self => (x, self).

(** Read an attribute of [self]. *)
Definition read {A} (f : ComputerInventory -> A) : method A :=
  fun self => (Ok (f self), self).

(** Update [self.computers] by [f]. *)
Definition write_computers (f : dict Computer -> dict Computer) : method unit :=
  fun self =>
    (Ok tt, {| computers := f (computers self);
               sales_history := sales_history self |}).

(** [self.sales_history.append(r)]. *)
Definition append_sale (r : SaleRecord) : method unit :=
  fun self =>
    (Ok tt, {| computers := computers self;
               sales_history := sales_history self ++ [r] |}).

Notation "x <- m ;; k" := (bind m (fun x => k))
  (at level 61, m at next level, right associativity).
Notation "m ;;; k" := (bind m (fun _ => k))
  (at level 61, right associativity).

(** [ComputerInventory()]. *)
Definition init : ComputerInventory :=
  {| computers := []; sales_history := [] |}.

Definition add_computer (computer : Computer) : method unit :=
  write_computers (dict_set (id computer) computer).

Definition remove_computer (computer_id : string) : method unit :=
  cs <- read computers ;;
  if dict_mem computer_id cs
  then write_computers (dict_del computer_id)
  else ret tt.

Definition update_stock (computer_id : string) (quantity : Z) : method bool :=
  cs <- read computers ;;
  match dict_get computer_id cs with
  | Some computer =>
      write_computers
        (dict_set computer_id (set_stock (stock computer + quantity) computer)) ;;;
      ret true
  | None => ret false
  end.

(** [now] is what [datetime.datetime.now()] returns during the call.
    The product of line 54 comes before the first write, so that an
    [OverflowError] from it leaves the object as it was. *)
Definition process_sale (now : datetime)
    (computer_id : string) (quantity : Z) (sale_type : SaleType)
    : method SaleRecord :=
  cs <- read computers ;;
  match dict_get computer_id cs with
  | None => raise ItemNotFound
  | Some computer =>
      if stock computer <? quantity then raise InsufficientStock
      else
        let price :=
          if SaleType_eqb sale_type WHOLESALE
          then wholesale_price computer
          else retail_price computer in
        total_price <- lift (mul_num_int price quantity) ;;
        write_computers
          (dict_set computer_id (set_stock (stock computer - quantity) computer)) ;;;
        let sale_record :=
          {| date := now;
             computer_id := computer_id;
             quantity := quantity;
             sale_type := SaleType_value sale_type;
             total_price := total_price;
             unit_price := price |} in
        append_sale sale_record ;;;
        ret sale_record
  end.

(** The four entries of the report are computed in the order they are
    written in; a product of stock and price that raises ends the call. *)
Definition get_inventory_report : method InventoryReport :=
  cs <- read computers ;;
  let total_computers := dict_len cs in
  let total_stock := sum_int (map stock (dict_values cs)) in
  total_wholesale_value <-
    lift (sum_gen (fun c => mul_int_num (stock c) (wholesale_price c))
                  (dict_values cs) (num_of_int 0)) ;;
  total_retail_value <-
    lift (sum_gen (fun c => mul_int_num (stock c) (retail_price c))
                  (dict_values cs) (num_of_int 0)) ;;
  ret {| total_computers := total_computers;
         total_stock := total_stock;
         total_wholesale_value := total_wholesale_value;
         total_retail_value := total_retail_value |}.

Definition get_sales_report (start_date : option datetime) : method SalesReport :=
  let start_date :=
    match start_date with None => datetime_min | Some d => d end in
  sales <- read sales_history ;;
  let filtered_sales :=
    filter (fun sale => datetime_ge (date sale) start_date) sales in
  let wholesale_sales :=
    sum_num (map total_price
               (filter (fun sale => String.eqb (sale_type sale)
                                      (SaleType_value WHOLESALE))
                       filtered_sales)) in
  let retail_sales :=
    sum_num (map total_price
               (filter (fun sale => String.eqb (sale_type sale)
                                      (SaleType_value RETAIL))
                       filtered_sales)) in
  ret {| total_sales := Z.of_nat (List.length filtered_sales);
         wholesale_revenue := wholesale_sales;
         retail_revenue := retail_sales;
         total_revenue := num_add wholesale_sales retail_sales |}.

(** *** A run of sales *)

(** One call of [process_sale]: its three arguments and the clock reading
    taken while it runs. *)
Record SaleCall := {
  call_now : datetime;
  call_id : string;
  call_quantity : Z;
  call_type : SaleType
}.

Definition do_sale (c : SaleCall) : method SaleRecord :=
  process_sale (call_now c) (call_id c) (call_quantity c) (call_type c).

(** The calls made one after the other on the same object; [Some] of the
    final state when every one of them returned, [None] as soon as one
    raised. *)
Fixpoint process_sales (calls : list SaleCall) (self : ComputerInventory)
    : option ComputerInventory :=
  match calls with
  | [] => Some self
  | c :: calls' =>
      match do_sale c self with
      | (Ok _, self') => process_sales calls' self'
      | (Raise _, _) => None
      end
  end.

(** *** Vocabulary of the specification *)

(** Every item of the catalog has a stock of at least zero. *)
Definition stock_nonneg (self : ComputerInventory) : Prop :=
  forall k c, dict_get k (computers self) = Some c -> 0 <= stock c.

(** The price that applies to a sale of the given type. *)
Definition price_for (t : SaleType) (c : Computer) : num :=
  match t with
  | WHOLESALE => wholesale_price c
  | RETAIL => retail_price c
  end.

(** The total of a record is its unit price times its quantity. *)
Definition priced_consistently (r : SaleRecord) : Prop :=
  total_price r = num_mul (unit_price r) (num_of_int (quantity r)).

(** What the stock of [c] is worth at the price [price] of it. *)
Definition stock_value (price : Computer -> num) (c : Computer) : num :=
  num_mul (num_of_int (stock c)) (price c).

(** The keys of the catalog are pairwise different, as in any [dict]. *)
Definition keys_unique (self : ComputerInventory) : Prop :=
  NoDup (dict_keys (computers self)).

(** Sum of the stock over the items, counted item by item. *)
Fixpoint stock_total (cs : list Computer) : Z :=
  match cs with
  | [] => 0
  | c :: cs' => stock c + stock_total cs'
  end.

(** The number of different identifiers among [ks]. *)
Definition count_distinct (ks : list string) : Z :=
  Z.of_nat (List.length (nodup string_dec ks)).

(** The record was made at [start] or later. *)
Definition since (start : datetime) (s : SaleRecord) : Prop :=
  (start <= date s)%N.

(** The records of the ledger made at [start] or later, in ledger order. *)
Fixpoint records_since (start : datetime) (ledger : list SaleRecord)
    : list SaleRecord :=
  match ledger with
  | [] => []
  | s :: ledger' =>
      match (start ?= date s)%N with
      | Gt => records_since start ledger'
      | _ => s :: records_since start ledger'
      end
  end.

(** The records of the given sale type, in order. *)
Fixpoint records_of_type (t : SaleType) (l : list SaleRecord)
    : list SaleRecord :=
  match l with
  | [] => []
  | s :: l' =>
      if string_dec (sale_type s) (SaleType_value t)
      then s :: records_of_type t l'
      else records_of_type t l'
  end.

(** [s] is the sum of [xs]: nothing adds up to the 0 that [sum] starts
    from, and the sum of a list with one term more at its end is the sum
    of the list plus that term. *)
Inductive sum_is : list num -> num -> Prop :=
| sum_is_nil : sum_is [] (num_of_int 0)
| sum_is_snoc xs x s : sum_is xs s -> sum_is (xs ++ [x]) (num_add s x).

(** Every item is stored under its own [id], as [add_computer] stores
    it.  No object is then in the catalog under two keys. *)
Definition well_keyed (self : ComputerInventory) : Prop :=
  forall k c, dict_get k (computers self) = Some c -> id c = k.

(** Every stock of the catalog can be promoted to a price. *)
Definition stocks_fit (self : ComputerInventory) : Prop :=
  Forall (fun c => num_fits (stock c) = true) (dict_values (computers self)).

(** The same record, stamped with another time. *)
Definition set_date (d : datetime) (s : SaleRecord) : SaleRecord :=
  {| date := d; computer_id := computer_id s; quantity := quantity s;
     sale_type := sale_type s; total_price := total_price s;
     unit_price := unit_price s |}.

(** The record a sale of [qty] units of [c] is written down as. *)
Definition record_of (now : datetime) (cid : string) (qty : Z)
    (ty : SaleType) (c : Computer) : SaleRecord :=
  {| date := now; computer_id := cid; quantity := qty;
     sale_type := SaleType_value ty;
     total_price := num_mul (price_for ty c) (num_of_int qty);
     unit_price := price_for ty c |}.

(** The object after a sale of [qty] units of [c] went through. *)
Definition after_sale (cid : string) (qty : Z) (c : Computer)
    (r : SaleRecord) (self : ComputerInventory) : ComputerInventory :=
  {| computers := dict_set cid (set_stock (stock c - qty) c) (computers self);
     sales_history := (sales_history self ++ [r])%list |}.

(** The four ways through [process_sale]. *)
Variant sale_outcome (now : datetime) (cid : string) (qty : Z)
    (ty : SaleType) (self : ComputerInventory)
  : result SaleRecord * ComputerInventory -> Prop :=
| SaleAbsent :
    dict_get cid (computers self) = None ->
    sale_outcome now cid qty ty self (Raise ItemNotFound, self)
| SaleShort c :
    dict_get cid (computers self) = Some c -> stock c < qty ->
    sale_outcome now cid qty ty self (Raise InsufficientStock, self)
| SaleOverflow c :
    dict_get cid (computers self) = Some c -> qty <= stock c ->
    num_fits qty = false ->
    sale_outcome now cid qty ty self (Raise IntTooLarge, self)
| SaleDone c :
    dict_get cid (computers self) = Some c -> qty <= stock c ->
    num_fits qty = true ->
    sale_outcome now cid qty ty self
      (Ok (record_of now cid qty ty c),
       after_sale cid qty c (record_of now cid qty ty c) self).

End Inventory.

Arguments Computer num : clear implicits.
Arguments SaleRecord num : clear implicits.
Arguments ComputerInventory num : clear implicits.
Arguments InventoryReport num : clear implicits.
Arguments SalesReport num : clear implicits.
Arguments method num A : clear implicits.
Arguments init {num}.

(** ** The example of [main], with prices in whole units *)

Definition sample_computer : Computer Z :=
  {| id := "LP001"; brand := "LaptopBrand"; model := "Pro2024";
     specs := [("processor", "Intel i7"); ("ram", "16GB");
               ("storage", "512GB SSD")];
     wholesale_price := 800; retail_price := 1200; stock := 10 |}.

(** The inventory of [main] once the sample computer is added. *)
Definition sample_inventory : ComputerInventory Z :=
  snd (add_computer sample_computer init).

(** Two clock readings, one microsecond apart. *)
Definition t0 : datetime := 63900000000000000%N.
Definition t1 : datetime := 63900000000000001%N.

(** The two sales of [main]: three units wholesale, then one retail. *)
Definition sample_calls : list SaleCall :=
  [ {| call_now := t0; call_id := "LP001"; call_quantity := 3;
       call_type := WHOLESALE |};
    {| call_now := t1; call_id := "LP001"; call_quantity := 1;
       call_type := RETAIL |} ].

Definition first_sale_record : SaleRecord Z :=
  {| date := t0; computer_id := "LP001"; quantity := 3;
     sale_type := "wholesale"; total_price := 2400; unit_price := 800 |}.

Definition second_sale_record : SaleRecord Z :=
  {| date := t1; computer_id := "LP001"; quantity := 1;
     sale_type := "retail"; total_price := 1200; unit_price := 1200 |}.

Definition inventory_after_first_sale : ComputerInventory Z :=
  {| computers := [("LP001", set_stock 7 sample_computer)];
     sales_history := [first_sale_record] |}.

(** The inventory of [main] when it prints its reports. *)
Definition inventory_after_main : ComputerInventory Z :=
  {| computers := [("LP001", set_stock 6 sample_computer)];
     sales_history := [first_sale_record; second_sale_record] |}.

(** A second computer and a third sale, for a catalog of two items and a
    ledger with two wholesale records. *)
Definition second_computer : Computer Z :=
  {| id := "DT002"; brand := "DesktopBrand"; model := "Tower2024";
     specs := [("processor", "Intel i5")];
     wholesale_price := 500; retail_price := 700; stock := 2 |}.

Definition third_sale_record : SaleRecord Z :=
  {| date := t1; computer_id := "DT002"; quantity := 2;
     sale_type := "wholesale"; total_price := 1000; unit_price := 500 |}.

Definition busy_inventory : ComputerInventory Z :=
  {| computers := [("LP001", set_stock 6 sample_computer);
                   ("DT002", second_computer)];
     sales_history :=
       [first_sale_record; second_sale_record; third_sale_record] |}.

(** ** The example of [main], with prices as floats *)

(** The computer of [main] with the prices 800.00 and 1200.00 it has
    there, and a stock of [n]. *)
Definition float_computer (n : Z) : Computer float :=
  {| id := "LP001"; brand := "LaptopBrand"; model := "Pro2024";
     specs := [("processor", "Intel i7"); ("ram", "16GB");
               ("storage", "512GB SSD")];
     wholesale_price := float_of_int 800;
     retail_price := float_of_int 1200;
     stock := n |}.

Definition float_inventory (n : Z) : ComputerInventory float :=
  snd (add_computer (float_computer n) init).

(** An [int] beyond the range of the floats. *)
Definition huge : Z := 10 ^ 400.

(** With whole-unit prices: the worth of the stock, item by item. *)
Fixpoint value_total (price : Computer Z -> Z) (cs : list (Computer Z)) : Z :=
  match cs with
  | [] => 0
  | c :: cs' => stock c * price c + value_total price cs'
  end.

(** ** A caller's program *)

Section Programs.
Context {num : Type} `{Number num}.

(** One call of a method of the inventory, with its arguments (and, for a
    sale, the clock reading taken while it runs). *)
Inductive Call :=
| AddComputer (computer : Computer num)
| RemoveComputer (computer_id : string)
| UpdateStock (computer_id : string) (quantity : Z)
| ProcessSale (now : datetime) (computer_id : string) (quantity : Z)
    (sale_type : SaleType)
| GetInventoryReport
| GetSalesReport (start_date : option datetime).

(** The object as the call leaves it, whether it returned or raised. *)
Definition call_state (c : Call) (self : ComputerInventory num)
    : ComputerInventory num :=
  match c with
  | AddComputer computer => snd (add_computer computer self)
  | RemoveComputer cid => snd (remove_computer cid self)
  | UpdateStock cid qty => snd (update_stock cid qty self)
  | ProcessSale now cid qty ty => snd (process_sale now cid qty ty self)
  | GetInventoryReport => snd (get_inventory_report self)
  | GetSalesReport start => snd (get_sales_report start self)
  end.

(** The calls made one after the other by a caller that catches what is
    raised and goes on. *)
Definition run_calls (calls : list Call) (self : ComputerInventory num)
    : ComputerInventory num :=
  fold_left (fun s c => call_state c s) calls self.

(** The call is a sale that returns (from the state [self]). *)
Definition is_sale_done (c : Call) (self : ComputerInventory num) : bool :=
  match c with
  | ProcessSale now cid qty ty =>
      match fst (process_sale now cid qty ty self) with
      | Ok _ => true
      | Raise _ => false
      end
  | _ => false
  end.

(** How many of the calls are sales that return. *)
Fixpoint count_sales_done (calls : list Call) (self : ComputerInventory num)
    : nat :=
  match calls with
  | [] => O
  | c :: calls' =>
      ((if is_sale_done c self then 1 else 0)
       + count_sales_done calls' (call_state c self))%nat
  end.

(** The call puts no negative stock into the catalog by hand: it adds no
    computer with a negative stock and adjusts no stock downwards. *)
Definition no_manual_deficit (c : Call) : Prop :=
  match c with
  | AddComputer computer => 0 <= stock computer
  | UpdateStock _ qty => 0 <= qty
  | _ => True
  end.

(** The units asked for by a run of sales. *)
Fixpoint calls_quantity (calls : list SaleCall) : Z :=
  match calls with
  | [] => 0
  | c :: calls' => call_quantity c + calls_quantity calls'
  end.

(** What a sale call and a sale record say about the sale. *)
Definition call_fields (c : SaleCall) : datetime * string * Z * string :=
  (call_now c, call_id c, call_quantity c, SaleType_value (call_type c)).

Definition record_fields (r : SaleRecord num)
    : datetime * string * Z * string :=
  (date r, computer_id r, quantity r, sale_type r).

(** The record is of one of the two sale types. *)
Definition known_type (r : SaleRecord num) : Prop :=
  sale_type r = SaleType_value WHOLESALE \/
  sale_type r = SaleType_value RETAIL.

(** Two computers that differ at most in their stock. *)
Definition same_but_stock (c c' : Computer num) : Prop :=
  c' = set_stock (stock c') c.

End Programs.

Arguments Call num : clear implicits.

(** With whole-unit prices: the totals of the records, record by record. *)
Fixpoint revenue_total (l : list (SaleRecord Z)) : Z :=
  match l with
  | [] => 0
  | r :: l' => total_price r + revenue_total l'
  end.

(** A caller at work on a new inventory: the computer of [main] is added,
    three units are sold, a sale of a hundred is refused, five units come
    in, and the sales report is asked for. *)
Definition sample_program : list (Call Z) :=
  [ AddComputer sample_computer;
    ProcessSale t0 "LP001" 3 WHOLESALE;
    ProcessSale t1 "LP001" 100 RETAIL;
    UpdateStock "LP001" 5;
    GetSalesReport None ].

Unset Implicit Arguments.

(** * Properties *)

(** ** Dictionaries *)

Section DictFacts.
Variable V : Type.
Implicit Types (d : dict V) (k : string) (v : V).

Lemma dict_get_set_same k v d : dict_get k (dict_set k v d) = Some v.
Proof.
  induction d as [|[k' v'] d IH]; simpl.
  - now rewrite String.eqb_refl.
  - destruct (String.eqb k k') eqn:E; simpl; rewrite E; auto.
Qed.

Lemma dict_get_set_other k k' v d :
  k' <> k -> dict_get k' (dict_set k v d) = dict_get k' d.
Proof.
  intros Hne.
  induction d as [|[k0 v0] d IH]; simpl.
  - destruct (String.eqb_spec k' k); congruence.
  - destruct (String.eqb_spec k k0) as [->|Hk]; simpl.
    + destruct (String.eqb_spec k' k0); congruence.
    + now rewrite IH.
Qed.

(** Writing under a key that is there changes no key and no position. *)
Lemma dict_keys_set_present k v v0 d :
  dict_get k d = Some v0 -> dict_keys (dict_set k v d) = dict_keys d.
Proof.
  induction d as [|[k' v'] d IH]; simpl; [discriminate|].
  destruct (String.eqb k k'); simpl; intros Hg; [reflexivity|].
  f_equal. now apply IH.
Qed.

Lemma dict_get_None_keys k d : dict_get k d = None <-> ~ In k (dict_keys d).
Proof.
  induction d as [|[k' v'] d IH]; simpl.
  - tauto.
  - destruct (String.eqb_spec k k') as [->|Hk].
    + split; [discriminate | tauto].
    + rewrite IH. split; [intros Hn [Heq|Hin]; congruence || tauto | tauto].
Qed.

Lemma dict_keys_set_absent k v d :
  dict_get k d = None -> dict_keys (dict_set k v d) = (dict_keys d ++ [k])%list.
Proof.
  induction d as [|[k' v'] d IH]; simpl; [reflexivity|].
  destruct (String.eqb k k'); [discriminate|].
  intros Hg. simpl. f_equal. now apply IH.
Qed.

(** Keys stay unique under [d[k] = v] and [del d[k]]. *)
Lemma dict_set_NoDup k v d :
  NoDup (dict_keys d) -> NoDup (dict_keys (dict_set k v d)).
Proof.
  intros Hd.
  destruct (dict_get k d) as [v0|] eqn:Hg.
  - now erewrite dict_keys_set_present by eassumption.
  - rewrite dict_keys_set_absent by assumption.
    apply NoDup_app; [assumption | repeat constructor; simpl; tauto |].
    intros x Hx [<-|[]]. now apply dict_get_None_keys in Hg.
Qed.

Lemma dict_del_incl k d x : In x (dict_keys (dict_del k d)) -> In x (dict_keys d).
Proof.
  induction d as [|[k' v'] d IH]; simpl; [tauto|].
  destruct (String.eqb k k'); simpl; tauto.
Qed.

Lemma dict_del_NoDup k d :
  NoDup (dict_keys d) -> NoDup (dict_keys (dict_del k d)).
Proof.
  induction d as [|[k' v'] d IH]; simpl; [auto|].
  intros Hd. inversion Hd as [|? ? Hnin Hd']; subst.
  destruct (String.eqb k k'); simpl; [assumption|].
  constructor; [|auto].
  intros Hin. apply Hnin. eapply dict_del_incl; eassumption.
Qed.

Lemma dict_get_del_same k d :
  NoDup (dict_keys d) -> dict_get k (dict_del k d) = None.
Proof.
  induction d as [|[k' v'] d IH]; simpl; [reflexivity|].
  intros Hd. inversion Hd as [|? ? Hnin Hd']; subst.
  destruct (String.eqb_spec k k') as [->|Hk]; simpl.
  - now apply dict_get_None_keys.
  - destruct (String.eqb_spec k k'); [contradiction | auto].
Qed.

End DictFacts.

(** ** Sale processing *)

Section SaleFacts.
Context {num : Type} `{Number num}.
Implicit Types (self : ComputerInventory num) (c : Computer num)
  (r : SaleRecord num) (cid : string) (qty : Z) (ty : SaleType)
  (now : datetime).

(** Each way through [process_sale], as an equation. *)
Lemma process_sale_absent now cid qty ty self :
  dict_get cid (computers self) = None ->
  process_sale now cid qty ty self = (Raise ItemNotFound, self).
Proof.
  intros Hg. unfold process_sale, bind, read. now rewrite Hg.
Qed.

Lemma process_sale_short now cid qty ty self c :
  dict_get cid (computers self) = Some c ->
  stock c < qty ->
  process_sale now cid qty ty self = (Raise InsufficientStock, self).
Proof.
  intros Hg Hlt. unfold process_sale, bind, read. rewrite Hg.
  apply Z.ltb_lt in Hlt. now rewrite Hlt.
Qed.

Lemma process_sale_overflow now cid qty ty self c :
  dict_get cid (computers self) = Some c ->
  qty <= stock c ->
  num_fits qty = false ->
  process_sale now cid qty ty self = (Raise IntTooLarge, self).
Proof.
  intros Hg Hle Hfit. unfold process_sale, bind, read. rewrite Hg.
  apply Z.ltb_ge in Hle. rewrite Hle.
  unfold lift, mul_num_int. now rewrite Hfit.
Qed.

Lemma process_sale_enough now cid qty ty self c :
  dict_get cid (computers self) = Some c ->
  qty <= stock c ->
  num_fits qty = true ->
  process_sale now cid qty ty self =
    (Ok (record_of now cid qty ty c),
     after_sale cid qty c (record_of now cid qty ty c) self).
Proof.
  intros Hg Hle Hfit. unfold process_sale, bind, read. rewrite Hg.
  apply Z.ltb_ge in Hle. rewrite Hle.
  unfold lift, mul_num_int. rewrite Hfit.
  destruct ty; reflexivity.
Qed.

Lemma process_sale_cases now cid qty ty self :
  sale_outcome now cid qty ty self (process_sale now cid qty ty self).
Proof.
  destruct (dict_get cid (computers self)) as [c|] eqn:Hg.
  - destruct (Z.lt_ge_cases (stock c) qty) as [Hlt|Hge].
    + rewrite (process_sale_short now cid qty ty self c Hg Hlt). now apply SaleShort with c.
    + destruct (num_fits qty) eqn:Hfit.
      * rewrite (process_sale_enough now cid qty ty self c Hg Hge Hfit).
        now apply SaleDone.
      * rewrite (process_sale_overflow now cid qty ty self c Hg Hge Hfit).
        now apply SaleOverflow with c.
  - rewrite (process_sale_absent now cid qty ty self Hg). now apply SaleAbsent.
Qed.

Ltac sale_cases now cid qty ty self :=
  destruct (process_sale_cases now cid qty ty self)
    as [Hget|c Hget Hlt|c Hget Hle Hfit|c Hget Hle Hfit].

(** The same on a hypothesis [Hrun] that says what the call gave. *)
Ltac sale_cases_in Hrun :=
  match type of Hrun with
  | process_sale ?now ?cid ?qty ?ty ?self = _ =>
      revert Hrun; sale_cases now cid qty ty self; intros Hrun;
      try discriminate Hrun
  end.

(** One call keeps every stock at zero or above, whether it returns or
    raises, and whatever the sign of the quantity. *)
Lemma process_sale_keeps_stock_nonneg now cid qty ty self :
  stock_nonneg self ->
  stock_nonneg (snd (process_sale now cid qty ty self)).
Proof.
  intros Hinv.
  sale_cases now cid qty ty self; simpl; try assumption.
  intros k c' Hk. simpl in Hk.
  destruct (string_dec k cid) as [->|Hne].
  - rewrite dict_get_set_same in Hk. injection Hk as <-. simpl. lia.
  - rewrite dict_get_set_other in Hk by assumption. eauto.
Qed.

Lemma process_sales_keep_stock_nonneg calls self self' :
  stock_nonneg self ->
  process_sales calls self = Some self' ->
  stock_nonneg self'.
Proof.
  revert self. induction calls as [|call calls IH]; simpl; intros self Hinv Hrun.
  - now injection Hrun as <-.
  - pose proof (process_sale_keeps_stock_nonneg
                  (call_now call) (call_id call) (call_quantity call)
                  (call_type call) self Hinv) as Hstep.
    unfold do_sale in Hrun.
    destruct (process_sale _ _ _ _ self) as [[r|e] s1]; [|discriminate].
    eapply IH; eassumption.
Qed.

(** C1: if every item starts with a stock of at least zero and every call
    of a sequence of [process_sale] calls asks for a positive quantity and
    returns, then after the sequence no item has a negative stock. *)
Theorem process_sales_stock_never_negative
    (calls : list SaleCall) self self' :
  Forall (fun call => 0 < call_quantity call) calls ->
  stock_nonneg self ->
  process_sales calls self = Some self' ->
  stock_nonneg self'.
Proof.
  intros _. apply process_sales_keep_stock_nonneg.
Qed.

(** C2: the record a successful [process_sale] returns carries the item's
    wholesale price as unit price for a wholesale sale and its retail price
    otherwise, a total price that is that unit price times the quantity,
    and the quantity, the identifier and the sale type (by its value, from
    which the type is read back) of the call. *)
Theorem process_sale_record_consistent now cid qty ty self r self' :
  process_sale now cid qty ty self = (Ok r, self') ->
  exists c,
    dict_get cid (computers self) = Some c /\
    unit_price r = price_for ty c /\
    total_price r = num_mul (unit_price r) (num_of_int (quantity r)) /\
    quantity r = qty /\
    computer_id r = cid /\
    sale_type r = SaleType_value ty /\
    SaleType_of_value (sale_type r) = Some ty.
Proof.
  intros Hrun.
  sale_cases_in Hrun. injection Hrun as <- <-.
  exists c. simpl. repeat split; trivial.
  now destruct ty.
Qed.

(** Every record of the ledger keeps that shape: a sale appends a
    consistent record and touches no earlier one. *)
Lemma process_sale_keeps_ledger_consistent now cid qty ty self :
  Forall priced_consistently (sales_history self) ->
  Forall priced_consistently
    (sales_history (snd (process_sale now cid qty ty self))).
Proof.
  intros Hall.
  sale_cases now cid qty ty self; simpl; try assumption.
  apply Forall_app. split; [assumption|].
  constructor; [reflexivity | constructor].
Qed.

(** C3: for an identifier that is no key of the catalog, [process_sale]
    raises the not-found error, whatever the quantity and the sale type,
    and the object (catalog and ledger) is left as it was. *)
Theorem process_sale_missing_item now cid qty ty self :
  ~ In cid (dict_keys (computers self)) ->
  process_sale now cid qty ty self = (Raise ItemNotFound, self).
Proof.
  intros Hnin. apply process_sale_absent.
  now apply dict_get_None_keys.
Qed.

(** C4, as the code has it: for an item of the catalog, asking for more
    than its stock raises the insufficient-stock error and leaves the
    object as it was.  Asking for exactly its stock succeeds and leaves
    the item with stock zero, and otherwise as it was, when the quantity
    is an [int] that can be promoted to a price (any [int] where prices
    are [int]s, one in the range of the floats where they are floats);
    when it cannot, the product of line 54 raises [OverflowError] and the
    object is left as it was. *)
Theorem process_sale_stock_boundary now cid qty ty self c :
  dict_get cid (computers self) = Some c ->
  (stock c < qty ->
     process_sale now cid qty ty self = (Raise InsufficientStock, self)) /\
  (stock c = qty -> num_fits qty = true ->
     exists r self' c',
       process_sale now cid qty ty self = (Ok r, self') /\
       dict_get cid (computers self') = Some c' /\
       stock c' = 0 /\
       id c' = id c /\ brand c' = brand c /\ model c' = model c /\
       specs c' = specs c /\
       wholesale_price c' = wholesale_price c /\
       retail_price c' = retail_price c) /\
  (stock c = qty -> num_fits qty = false ->
     process_sale now cid qty ty self = (Raise IntTooLarge, self)).
Proof.
  intros Hg. split; [|split].
  - intros Hlt. now apply process_sale_short with c.
  - intros Heq Hfit.
    rewrite (process_sale_enough now cid qty ty self c Hg) by (lia || assumption).
    exists (record_of now cid qty ty c),
           (after_sale cid qty c (record_of now cid qty ty c) self),
           (set_stock (stock c - qty) c).
    split; [reflexivity|]. simpl.
    split; [apply dict_get_set_same|].
    split; [lia|]. repeat split.
  - intros Heq Hfit.
    apply process_sale_overflow with c; [assumption | lia | assumption].
Qed.


(** C9, as the code has it: the timestamp of the record is the clock
    reading [datetime.now()] gives during the call, which is no argument
    of [process_sale].  With the same reading a second run from the same
    state with the same arguments gives the same record and state; with
    another reading it gives the same outcome up to that timestamp. *)
Theorem process_sale_timestamp_is_clock_reading now cid qty ty self r self' :
  process_sale now cid qty ty self = (Ok r, self') ->
  date r = now /\
  sales_history self' = (sales_history self ++ [r])%list /\
  forall now',
    process_sale now' cid qty ty self =
      (Ok (set_date now' r),
       {| computers := computers self';
          sales_history := (sales_history self ++ [set_date now' r])%list |}) /\
    (now' = now -> process_sale now' cid qty ty self = (Ok r, self')).
Proof.
  intros Hrun.
  sale_cases_in Hrun. injection Hrun as <- <-.
  repeat split; trivial.
  - now rewrite (process_sale_enough now' cid qty ty self c Hget Hle Hfit).
  - intros ->. now apply process_sale_enough.
Qed.

(** A call that raises does so whatever the clock reads. *)
Lemma process_sale_raise_ignores_clock now now' cid qty ty self e self' :
  process_sale now cid qty ty self = (Raise e, self') ->
  process_sale now' cid qty ty self = (Raise e, self').
Proof.
  intros Hrun.
  sale_cases_in Hrun; injection Hrun as <- <-.
  - now apply process_sale_absent.
  - now apply process_sale_short with c.
  - now apply process_sale_overflow with c.
Qed.

End SaleFacts.

(** ** Catalog *)

Section CatalogFacts.
Context {num : Type} `{Number num}.
Implicit Types (self : ComputerInventory num) (c : Computer num)
  (cid : string) (delta : Z).

Lemma update_stock_present cid delta self c :
  dict_get cid (computers self) = Some c ->
  update_stock cid delta self =
    (Ok true,
     {| computers :=
          dict_set cid (set_stock (stock c + delta) c) (computers self);
        sales_history := sales_history self |}).
Proof.
  intros Hg. unfold update_stock, bind, read. now rewrite Hg.
Qed.

Lemma update_stock_absent cid delta self :
  dict_get cid (computers self) = None ->
  update_stock cid delta self = (Ok false, self).
Proof.
  intros Hg. unfold update_stock, bind, read. now rewrite Hg.
Qed.


(** The keys of the catalog stay pairwise different under every method. *)
Lemma init_keys_unique : keys_unique (@init num).
Proof. constructor. Qed.

Lemma add_computer_keys_unique c self :
  keys_unique self -> keys_unique (snd (add_computer c self)).
Proof. intros Hu. simpl. now apply dict_set_NoDup. Qed.

Lemma remove_computer_keys_unique cid self :
  keys_unique self -> keys_unique (snd (remove_computer cid self)).
Proof.
  intros Hu. unfold remove_computer, bind, read.
  destruct (dict_mem cid (computers self)); simpl; [|assumption].
  now apply dict_del_NoDup.
Qed.

Lemma update_stock_keys_unique cid delta self :
  keys_unique self -> keys_unique (snd (update_stock cid delta self)).
Proof.
  intros Hu. unfold update_stock, bind, read.
  destruct (dict_get cid (computers self)); simpl; [|assumption].
  now apply dict_set_NoDup.
Qed.

Lemma process_sale_keys_unique now cid qty ty self :
  keys_unique self -> keys_unique (snd (process_sale now cid qty ty self)).
Proof.
  intros Hu.
  destruct (process_sale_cases now cid qty ty self); simpl; try assumption.
  now apply dict_set_NoDup.
Qed.

(** After [remove_computer] the identifier is gone. *)
Lemma remove_computer_removes cid self :
  keys_unique self ->
  dict_get cid (computers (snd (remove_computer cid self))) = None.
Proof.
  intros Hu. unfold remove_computer, bind, read, dict_mem.
  destruct (dict_get cid (computers self)) eqn:Hg; simpl.
  - now apply dict_get_del_same.
  - assumption.
Qed.

End CatalogFacts.

(** ** Reports *)

Section ReportFacts.
Context {num : Type} `{Number num}.
Implicit Types (self : ComputerInventory num) (s : SaleRecord num)
  (l : list (SaleRecord num)) (start : datetime).

(** The accumulating sum of the code against the item-by-item one. *)
Lemma fold_stock_total (cs : list (Computer num)) (acc : Z) :
  fold_left Z.add (map stock cs) acc = acc + stock_total cs.
Proof.
  revert acc. induction cs as [|c cs IH]; intros acc; simpl.
  - lia.
  - rewrite IH. lia.
Qed.

Lemma sum_int_stock_total (cs : list (Computer num)) :
  sum_int (map stock cs) = stock_total cs.
Proof. unfold sum_int. now rewrite fold_stock_total. Qed.

Lemma count_distinct_NoDup (ks : list string) :
  NoDup ks -> count_distinct ks = Z.of_nat (List.length ks).
Proof.
  intros Hnd. unfold count_distinct. now rewrite nodup_fixed_point.
Qed.

(** The accumulating sum of the code is the sum. *)
Lemma fold_sum_is (xs : list num) :
  sum_is xs (fold_left num_add xs (num_of_int 0)).
Proof.
  induction xs as [|x xs IH] using rev_ind.
  - constructor.
  - rewrite fold_left_app. simpl. now constructor.
Qed.

Lemma sum_num_is (xs : list num) : sum_is xs (sum_num xs).
Proof. apply fold_sum_is. Qed.

(** A list has one sum. *)
Lemma sum_is_unique (xs : list num) (s s' : num) :
  sum_is xs s -> sum_is xs s' -> s = s'.
Proof.
  intros Hs. revert s'.
  induction Hs as [|xs x s Hs IH]; intros s' Hs'.
  - inversion Hs' as [|ys y t Ht Heq]; [reflexivity|].
    now destruct ys.
  - inversion Hs' as [Heq|ys y t Ht Heq].
    + now destruct xs.
    + apply app_inj_tail in Heq as [-> ->].
      now rewrite (IH t Ht).
Qed.

(** The sum over the products of stock and price, term by term: with
    every stock promoted it is the accumulating sum of the products, and
    the first stock that cannot be promoted ends it. *)
Lemma sum_gen_fit (price : Computer num -> num) (cs : list (Computer num))
    (acc : num) :
  Forall (fun c => num_fits (stock c) = true) cs ->
  sum_gen (fun c => mul_int_num (stock c) (price c)) cs acc =
    Ok (fold_left num_add (map (stock_value price) cs) acc).
Proof.
  intros Hfit. revert acc.
  induction Hfit as [|c cs Hc Hcs IH]; intros acc; simpl; [reflexivity|].
  unfold mul_int_num at 1. rewrite Hc. apply IH.
Qed.

Lemma sum_gen_overflow (price : Computer num -> num)
    (cs : list (Computer num)) (acc : num) :
  ~ Forall (fun c => num_fits (stock c) = true) cs ->
  sum_gen (fun c => mul_int_num (stock c) (price c)) cs acc =
    Raise IntTooLarge.
Proof.
  revert acc. induction cs as [|c cs IH]; intros acc Hnot; simpl.
  - destruct Hnot. constructor.
  - unfold mul_int_num at 1.
    destruct (num_fits (stock c)) eqn:Hc; [|reflexivity].
    apply IH. intros Hcs. apply Hnot. now constructor.
Qed.

Lemma get_inventory_report_run self :
  stocks_fit self ->
  get_inventory_report self =
    (Ok {| total_computers := dict_len (computers self);
           total_stock := sum_int (map stock (dict_values (computers self)));
           total_wholesale_value :=
             sum_num (map (stock_value wholesale_price)
                          (dict_values (computers self)));
           total_retail_value :=
             sum_num (map (stock_value retail_price)
                          (dict_values (computers self))) |},
     self).
Proof.
  intros Hfit. unfold get_inventory_report, bind, read, lift, ret.
  cbv beta iota zeta.
  now rewrite !(sum_gen_fit _ _ _ Hfit).
Qed.

Lemma get_inventory_report_overflow self :
  ~ stocks_fit self ->
  get_inventory_report self = (Raise IntTooLarge, self).
Proof.
  intros Hnot. unfold get_inventory_report, bind, read, lift, ret.
  cbv beta iota zeta.
  now rewrite (sum_gen_overflow _ _ _ Hnot).
Qed.

(** The report never writes to the object. *)
Lemma get_inventory_report_state self :
  snd (get_inventory_report self) = self.
Proof.
  unfold get_inventory_report, bind, read, lift, ret. cbv beta iota zeta.
  destruct (sum_gen _ _ _); [|reflexivity].
  now destruct (sum_gen _ _ _).
Qed.

(** C5, as the code has it: when every stock of the catalog is an [int]
    that can be promoted to a price (any [int] where prices are [int]s,
    one in the range of the floats where they are floats),
    [get_inventory_report] returns the number of different items of the
    catalog, the sum of their stocks, and the sums of stock times
    wholesale price and of stock times retail price over them; when some
    stock cannot, the product of line 77 raises [OverflowError].  In
    both cases the object (catalog and ledger) is left as it was. *)
Theorem get_inventory_report_totals self :
  keys_unique self ->
  (stocks_fit self ->
   exists rep,
     get_inventory_report self = (Ok rep, self) /\
     total_computers rep = count_distinct (dict_keys (computers self)) /\
     total_stock rep = stock_total (dict_values (computers self)) /\
     sum_is (map (stock_value wholesale_price)
                 (dict_values (computers self)))
            (total_wholesale_value rep) /\
     sum_is (map (stock_value retail_price)
                 (dict_values (computers self)))
            (total_retail_value rep)) /\
  (~ stocks_fit self ->
   get_inventory_report self = (Raise IntTooLarge, self)).
Proof.
  intros Hu. split.
  - intros Hfit. eexists.
    split; [now apply get_inventory_report_run|]. simpl.
    split; [|split; [|split]].
    + rewrite (count_distinct_NoDup _ Hu).
      unfold dict_len, dict_keys. now rewrite length_map.
    + apply sum_int_stock_total.
    + apply sum_num_is.
    + apply sum_num_is.
  - apply get_inventory_report_overflow.
Qed.

(** The filters of the code select what the specification describes. *)
Lemma filter_records_since start l :
  filter (fun s => datetime_ge (date s) start) l = records_since start l.
Proof.
  induction l as [|s l IH]; simpl; [reflexivity|].
  rewrite IH. unfold datetime_ge.
  rewrite N.leb_compare.
  now destruct (start ?= date s)%N.
Qed.

Lemma filter_records_of_type (t : SaleType) l :
  filter (fun s => String.eqb (sale_type s) (SaleType_value t)) l =
  records_of_type t l.
Proof.
  induction l as [|s l IH]; simpl; [reflexivity|].
  rewrite IH.
  destruct (string_dec (sale_type s) (SaleType_value t)) as [Heq|Hne].
  - apply String.eqb_eq in Heq. now rewrite Heq.
  - apply String.eqb_neq in Hne. now rewrite Hne.
Qed.

Lemma records_since_In start l s :
  In s (records_since start l) <-> In s l /\ since start s.
Proof.
  unfold since.
  induction l as [|s0 l IH]; simpl; [tauto|].
  destruct (N.compare_spec start (date s0)) as [Heq|Hlt|Hgt]; simpl;
    rewrite IH; split.
  - intros [->|[Hin Hle]]; [split; [now left | lia] | tauto].
  - tauto.
  - intros [->|[Hin Hle]]; [split; [now left | lia] | tauto].
  - tauto.
  - tauto.
  - intros [[->|Hin] Hle]; [lia | tauto].
Qed.

Lemma records_of_type_In (t : SaleType) l s :
  In s (records_of_type t l) <-> In s l /\ sale_type s = SaleType_value t.
Proof.
  induction l as [|s0 l IH]; simpl; [tauto|].
  destruct (string_dec (sale_type s0) (SaleType_value t)) as [Heq|Hne];
    simpl; rewrite IH; split; try tauto.
  - intros [->|[Hin Hs]]; tauto.
  - intros [[->|Hin] Hs]; [contradiction | tauto].
Qed.

Lemma get_sales_report_run start self :
  get_sales_report (Some start) self =
    (Ok {| total_sales :=
             Z.of_nat (List.length (records_since start (sales_history self)));
           wholesale_revenue :=
             sum_num (map total_price
               (records_of_type WHOLESALE
                  (records_since start (sales_history self))));
           retail_revenue :=
             sum_num (map total_price
               (records_of_type RETAIL
                  (records_since start (sales_history self))));
           total_revenue :=
             num_add
               (sum_num (map total_price
                  (records_of_type WHOLESALE
                     (records_since start (sales_history self)))))
               (sum_num (map total_price
                  (records_of_type RETAIL
                     (records_since start (sales_history self))))) |},
     self).
Proof.
  unfold get_sales_report, bind, read, ret. cbv beta iota zeta.
  now rewrite !filter_records_of_type, !filter_records_since.
Qed.

(** C6: [get_sales_report] with a start time takes the records of the
    ledger made at that time or later, with no bound above, and returns
    how many they are, the sum of the totals of the wholesale ones, the sum
    of the totals of the retail ones, and as total revenue the sum of
    those two sums. *)
Theorem get_sales_report_totals start self :
  exists rep,
    get_sales_report (Some start) self = (Ok rep, self) /\
    (forall s, In s (records_since start (sales_history self)) <->
               In s (sales_history self) /\ since start s) /\
    total_sales rep =
      Z.of_nat (List.length (records_since start (sales_history self))) /\
    sum_is (map total_price
              (records_of_type WHOLESALE
                 (records_since start (sales_history self))))
           (wholesale_revenue rep) /\
    sum_is (map total_price
              (records_of_type RETAIL
                 (records_since start (sales_history self))))
           (retail_revenue rep) /\
    total_revenue rep = num_add (wholesale_revenue rep) (retail_revenue rep).
Proof.
  eexists. split; [apply get_sales_report_run|]. simpl.
  split; [intros s; apply records_since_In|].
  split; [reflexivity|].
  split; [apply sum_num_is|].
  split; [apply sum_num_is | reflexivity].
Qed.

(** Without a start time the report starts at [datetime.min], which no
    record precedes: the whole ledger is taken. *)
Lemma get_sales_report_default self :
  get_sales_report None self = get_sales_report (Some datetime_min) self /\
  records_since datetime_min (sales_history self) = sales_history self.
Proof.
  split; [reflexivity|].
  induction (sales_history self) as [|s l IH]; simpl; [reflexivity|].
  rewrite IH. now destruct (date s).
Qed.

(** A later start time selects no more records. *)
Lemma records_since_length_antitone (ta tb : datetime) l :
  (ta <= tb)%N ->
  (List.length (records_since tb l) <= List.length (records_since ta l))%nat.
Proof.
  intros Hle.
  induction l as [|s l IH]; simpl; [constructor|].
  destruct (N.compare_spec tb (date s)), (N.compare_spec ta (date s));
    simpl; lia.
Qed.

(** C7: for one ledger and start times [ta <= tb], the report from [ta]
    counts at least as many sales as the report from [tb]. *)
Theorem get_sales_report_antitone (ta tb : datetime) self :
  (ta <= tb)%N ->
  exists ra rb,
    get_sales_report (Some ta) self = (Ok ra, self) /\
    get_sales_report (Some tb) self = (Ok rb, self) /\
    total_sales ra >= total_sales rb.
Proof.
  intros Hle. do 2 eexists.
  split; [apply get_sales_report_run|].
  split; [apply get_sales_report_run|]. simpl.
  pose proof (records_since_length_antitone ta tb (sales_history self) Hle).
  lia.
Qed.

End ReportFacts.

(** * The example of [main], run *)

Example main_first_sale :
  process_sale t0 "LP001" 3 WHOLESALE sample_inventory =
    (Ok first_sale_record, inventory_after_first_sale).
Proof. reflexivity. Qed.

Example main_second_sale :
  process_sale t1 "LP001" 1 RETAIL inventory_after_first_sale =
    (Ok second_sale_record, inventory_after_main).
Proof. reflexivity. Qed.

Example main_sales : process_sales sample_calls sample_inventory = Some inventory_after_main.
Proof. reflexivity. Qed.

Example main_inventory_report :
  get_inventory_report inventory_after_main =
    (Ok {| total_computers := 1; total_stock := 6;
           total_wholesale_value := 4800; total_retail_value := 7200 |},
     inventory_after_main).
Proof. reflexivity. Qed.

Example main_sales_report :
  get_sales_report None inventory_after_main =
    (Ok {| total_sales := 2; wholesale_revenue := 2400;
           retail_revenue := 1200; total_revenue := 3600 |},
     inventory_after_main).
Proof. reflexivity. Qed.

Example main_oversell :
  process_sale t1 "LP001" 100 RETAIL inventory_after_main =
    (Raise InsufficientStock, inventory_after_main).
Proof. reflexivity. Qed.

(** The same with the float prices of [main]: 800.0 * 3 is 2400.0. *)
Example main_first_sale_float :
  process_sale t0 "LP001" 3 WHOLESALE (float_inventory 10) =
    (Ok {| date := t0; computer_id := "LP001"; quantity := 3;
           sale_type := "wholesale"; total_price := float_of_int 2400;
           unit_price := float_of_int 800 |},
     {| computers := [("LP001", float_computer 7)];
        sales_history :=
          [{| date := t0; computer_id := "LP001"; quantity := 3;
              sale_type := "wholesale"; total_price := float_of_int 2400;
              unit_price := float_of_int 800 |}] |}).
Proof. vm_compute. reflexivity. Qed.

Example main_inventory_report_float :
  get_inventory_report (float_inventory 6) =
    (Ok {| total_computers := 1; total_stock := 6;
           total_wholesale_value := float_of_int 4800;
           total_retail_value := float_of_int 7200 |},
     float_inventory 6).
Proof. vm_compute. reflexivity. Qed.

(** The largest [int] that still is a float, and the first that is not. *)
Example float_fits_bound :
  float_fits (2 ^ 1024 - 2 ^ 970 - 1) = true /\
  float_fits (2 ^ 1024 - 2 ^ 970) = false /\
  float_fits huge = false /\ float_fits (- huge) = false.
Proof. vm_compute. repeat split. Qed.

Example main_unknown :
  process_sale t1 "UNKNOWN" 1 RETAIL inventory_after_main =
    (Raise ItemNotFound, inventory_after_main).
Proof. reflexivity. Qed.

(** With whole-unit prices the sums of the report are exact and equal the
    item-by-item totals. *)
Lemma sum_num_value_total (price : Computer Z -> Z) (cs : list (Computer Z)) :
  sum_num (map (stock_value price) cs) = value_total price cs.
Proof.
  unfold sum_num. simpl.
  assert (Hacc : forall acc,
            fold_left Z.add (map (stock_value price) cs) acc =
            acc + value_total price cs).
  { induction cs as [|c cs IH]; intros acc; simpl; [lia|].
    rewrite IH. unfold stock_value. simpl. lia. }
  now rewrite Hacc.
Qed.

Lemma sample_stock_nonneg : stock_nonneg sample_inventory.
Proof.
  intros k c. simpl.
  destruct (String.eqb k "LP001"); [|discriminate].
  intros [= <-]. simpl. lia.
Qed.

Lemma sample_keys_unique : keys_unique sample_inventory.
Proof.
  apply (add_computer_keys_unique sample_computer init), init_keys_unique.
Qed.

(** * The theorems at the example of [main] *)

Lemma process_sales_stock_never_negative_witness :
  Forall (fun call => 0 < call_quantity call) sample_calls /\
  stock_nonneg sample_inventory /\
  process_sales sample_calls sample_inventory = Some inventory_after_main /\
  stock_nonneg inventory_after_main.
Proof.
  assert (Hq : Forall (fun call => 0 < call_quantity call) sample_calls)
    by (repeat constructor).
  repeat split; try assumption.
  - apply sample_stock_nonneg.
  - apply (@process_sales_stock_never_negative Z Number_Z
             sample_calls sample_inventory inventory_after_main);
      [assumption | apply sample_stock_nonneg | reflexivity].
Defined.

Lemma process_sale_record_consistent_witness :
  process_sale t0 "LP001" 3 WHOLESALE sample_inventory =
    (Ok first_sale_record, inventory_after_first_sale) /\
  exists c,
    dict_get "LP001" (computers sample_inventory) = Some c /\
    unit_price first_sale_record = price_for WHOLESALE c /\
    total_price first_sale_record =
      num_mul (unit_price first_sale_record)
              (num_of_int (quantity first_sale_record)) /\
    quantity first_sale_record = 3 /\
    computer_id first_sale_record = "LP001" /\
    sale_type first_sale_record = SaleType_value WHOLESALE /\
    SaleType_of_value (sale_type first_sale_record) = Some WHOLESALE.
Proof.
  split; [reflexivity|].
  apply (@process_sale_record_consistent Z Number_Z t0 "LP001" 3 WHOLESALE
           sample_inventory first_sale_record inventory_after_first_sale).
  reflexivity.
Defined.

Lemma process_sale_missing_item_witness :
  ~ In "UNKNOWN" (dict_keys (computers sample_inventory)) /\
  process_sale t0 "UNKNOWN" 1 RETAIL sample_inventory =
    (Raise ItemNotFound, sample_inventory).
Proof.
  assert (Hnin : ~ In "UNKNOWN" (dict_keys (computers sample_inventory)))
    by (simpl; intros [Heq|[]]; discriminate Heq).
  split; [assumption|].
  apply (@process_sale_missing_item Z Number_Z t0 "UNKNOWN" 1 RETAIL
           sample_inventory Hnin).
Defined.

Lemma process_sale_stock_boundary_witness :
  process_sale t0 "LP001" 11 RETAIL sample_inventory =
    (Raise InsufficientStock, sample_inventory) /\
  (exists r self' c',
     process_sale t0 "LP001" 10 RETAIL sample_inventory = (Ok r, self') /\
     dict_get "LP001" (computers self') = Some c' /\
     stock c' = 0 /\
     wholesale_price c' = 800 /\
     retail_price c' = 1200) /\
  process_sale t0 "LP001" huge RETAIL (float_inventory huge) =
    (Raise IntTooLarge, float_inventory huge).
Proof.
  split; [|split].
  - apply (proj1 (@process_sale_stock_boundary Z Number_Z t0 "LP001" 11 RETAIL
                    sample_inventory sample_computer eq_refl)).
    simpl. lia.
  - destruct (proj1 (proj2 (@process_sale_stock_boundary Z Number_Z t0 "LP001"
                              10 RETAIL sample_inventory sample_computer
                              eq_refl)) eq_refl eq_refl)
      as (r & self' & c' & Hrun & Hget & Hzero & _ & _ & _ & _ & Hw & Hr).
    exists r, self', c'.
    split; [exact Hrun|]. split; [exact Hget|]. split; [exact Hzero|].
    split; [exact Hw | exact Hr].
  - apply (proj2 (proj2 (@process_sale_stock_boundary float Number_float t0
                           "LP001" huge RETAIL (float_inventory huge)
                           (float_computer huge) eq_refl)));
      vm_compute; reflexivity.
Defined.

(** C4 as the specification words it does not hold: with the float prices
    of [main], a stock of 10^400 and a sale of exactly that quantity, the
    stock test passes and the product of price and quantity raises
    [OverflowError]; the sale does not succeed. *)
Lemma process_sale_boundary_overflows :
  dict_get "LP001" (computers (float_inventory huge)) =
    Some (float_computer huge) /\
  stock (float_computer huge) = huge /\
  process_sale t0 "LP001" huge RETAIL (float_inventory huge) =
    (Raise IntTooLarge, float_inventory huge) /\
  ~ exists r self',
      process_sale t0 "LP001" huge RETAIL (float_inventory huge) =
        (Ok r, self').
Proof.
  assert (Hrun : process_sale t0 "LP001" huge RETAIL (float_inventory huge) =
                 (Raise IntTooLarge, float_inventory huge))
    by (vm_compute; reflexivity).
  repeat split; trivial.
  intros (r & self' & Hok). rewrite Hrun in Hok. discriminate Hok.
Qed.

Lemma busy_keys_unique : keys_unique busy_inventory.
Proof.
  unfold keys_unique. simpl.
  constructor; [simpl; intros [Heq|[]]; discriminate Heq|].
  constructor; [simpl; tauto | constructor].
Qed.

Lemma get_inventory_report_totals_witness :
  keys_unique busy_inventory /\
  stocks_fit busy_inventory /\
  (exists rep,
     get_inventory_report busy_inventory = (Ok rep, busy_inventory) /\
     total_computers rep = 2 /\
     total_stock rep = 8 /\
     total_wholesale_value rep = 5800 /\
     total_retail_value rep = 8600) /\
  get_inventory_report (float_inventory huge) =
    (Raise IntTooLarge, float_inventory huge).
Proof.
  assert (Hfit : stocks_fit busy_inventory) by (repeat constructor).
  split; [apply busy_keys_unique|]. split; [exact Hfit|]. split.
  - destruct (proj1 (@get_inventory_report_totals Z Number_Z busy_inventory
                       busy_keys_unique) Hfit)
      as (rep & Hrun & Hn & Hs & Hw & Hr).
    exists rep. split; [exact Hrun|]. split; [exact Hn|]. split; [exact Hs|].
    split.
    + exact (sum_is_unique _ _ _ Hw (sum_num_is _)).
    + exact (sum_is_unique _ _ _ Hr (sum_num_is _)).
  - apply (proj2 (@get_inventory_report_totals float Number_float
                    (float_inventory huge)
                    (add_computer_keys_unique (float_computer huge) init
                       init_keys_unique))).
    intros Hfit'. inversion Hfit' as [|c cs Hc Hcs]. vm_compute in Hc.
    discriminate Hc.
Defined.

(** C5 as the specification words it does not hold: with the float prices
    of [main] and a stock of 10^400 the first product of stock and price
    raises [OverflowError], and no report is returned. *)
Lemma get_inventory_report_overflows :
  get_inventory_report (float_inventory huge) =
    (Raise IntTooLarge, float_inventory huge) /\
  ~ exists rep self',
      get_inventory_report (float_inventory huge) = (Ok rep, self').
Proof.
  assert (Hrun : get_inventory_report (float_inventory huge) =
                 (Raise IntTooLarge, float_inventory huge))
    by (vm_compute; reflexivity).
  split; [exact Hrun|].
  intros (rep & self' & Hok). rewrite Hrun in Hok. discriminate Hok.
Qed.

Lemma get_sales_report_totals_witness :
  exists rep,
    get_sales_report (Some t0) busy_inventory = (Ok rep, busy_inventory) /\
    total_sales rep = 3 /\
    wholesale_revenue rep = 3400 /\
    retail_revenue rep = 1200 /\
    total_revenue rep = 4600.
Proof.
  destruct (@get_sales_report_totals Z Number_Z t0 busy_inventory)
    as (rep & Hrun & _ & Hn & Hw & Hr & Ht).
  exists rep. split; [exact Hrun|]. split; [exact Hn|].
  assert (Hw' : wholesale_revenue rep = 3400)
    by exact (sum_is_unique _ _ _ Hw (sum_num_is _)).
  assert (Hr' : retail_revenue rep = 1200)
    by exact (sum_is_unique _ _ _ Hr (sum_num_is _)).
  split; [exact Hw'|]. split; [exact Hr'|].
  rewrite Ht, Hw', Hr'. reflexivity.
Defined.

Lemma get_sales_report_antitone_witness :
  (t0 <= t1)%N /\
  exists ra rb,
    get_sales_report (Some t0) inventory_after_main =
      (Ok ra, inventory_after_main) /\
    get_sales_report (Some t1) inventory_after_main =
      (Ok rb, inventory_after_main) /\
    total_sales ra >= total_sales rb.
Proof.
  assert (Hle : (t0 <= t1)%N) by (unfold t0, t1; lia).
  split; [assumption|].
  exact (@get_sales_report_antitone Z Number_Z t0 t1 inventory_after_main Hle).
Defined.




Lemma process_sale_timestamp_is_clock_reading_witness :
  process_sale t0 "LP001" 3 WHOLESALE sample_inventory =
    (Ok first_sale_record, inventory_after_first_sale) /\
  date first_sale_record = t0 /\
  process_sale t1 "LP001" 3 WHOLESALE sample_inventory =
    (Ok (set_date t1 first_sale_record),
     {| computers := computers inventory_after_first_sale;
        sales_history := [set_date t1 first_sale_record] |}).
Proof.
  destruct (@process_sale_timestamp_is_clock_reading Z Number_Z
              t0 "LP001" 3 WHOLESALE sample_inventory
              first_sale_record inventory_after_first_sale eq_refl)
    as (Hdate & _ & Hother).
  split; [reflexivity|].
  split; [exact Hdate|].
  exact (proj1 (Hother t1)).
Defined.

(** C9 as the specification words it does not hold: [process_sale] takes
    no clock from its caller, and two runs from the same state with the
    same three arguments return different records when the machine's clock
    has moved on by a microsecond in between. *)
Lemma process_sale_depends_on_wall_clock :
  process_sale t0 "LP001" 3 WHOLESALE sample_inventory <>
  process_sale t1 "LP001" 3 WHOLESALE sample_inventory.
Proof.
  intros Heq. vm_compute in Heq. discriminate Heq.
Qed.

(** * More of the inventory: the catalog methods and how calls compose *)

(** ** Dictionaries, continued *)

Section DictMoreFacts.
Variable V : Type.
Implicit Types (d : dict V) (k : string) (v : V).

Lemma dict_set_absent_last k v d :
  dict_get k d = None -> dict_set k v d = (d ++ [(k, v)])%list.
Proof.
  induction d as [|[k' v'] d IH]; simpl; [reflexivity|].
  destruct (String.eqb k k'); [discriminate|].
  intros Hg. f_equal. now apply IH.
Qed.

Lemma dict_del_last k v d :
  dict_get k d = None -> dict_del k (d ++ [(k, v)])%list = d.
Proof.
  induction d as [|[k' v'] d IH]; simpl.
  - now rewrite String.eqb_refl.
  - destruct (String.eqb k k'); [discriminate|].
    intros Hg. f_equal. now apply IH.
Qed.

Lemma dict_del_absent k d : dict_get k d = None -> dict_del k d = d.
Proof.
  induction d as [|[k' v'] d IH]; simpl; [reflexivity|].
  destruct (String.eqb k k'); [discriminate|].
  intros Hg. f_equal. now apply IH.
Qed.

Lemma dict_get_del_other k k' d :
  k' <> k -> dict_get k' (dict_del k d) = dict_get k' d.
Proof.
  intros Hne.
  induction d as [|[k0 v0] d IH]; simpl; [reflexivity|].
  destruct (String.eqb_spec k k0) as [->|Hk]; simpl.
  - destruct (String.eqb_spec k' k0); congruence.
  - now rewrite IH.
Qed.

(** Writing back what is there changes nothing. *)
Lemma dict_set_same_value k v d : dict_get k d = Some v -> dict_set k v d = d.
Proof.
  induction d as [|[k' v'] d IH]; simpl; [discriminate|].
  destruct (String.eqb k k').
  - now intros [= ->].
  - intros Hg. f_equal. now apply IH.
Qed.

(** Of two writes under one key the second one stays. *)
Lemma dict_set_set k v1 v2 d :
  dict_set k v2 (dict_set k v1 d) = dict_set k v2 d.
Proof.
  induction d as [|[k' v'] d IH]; simpl.
  - now rewrite String.eqb_refl.
  - destruct (String.eqb k k') eqn:E; simpl; rewrite E; [reflexivity|].
    now rewrite IH.
Qed.

Lemma dict_len_set k v d :
  dict_len (dict_set k v d) =
  dict_len d + (if dict_mem k d then 0 else 1).
Proof.
  unfold dict_len, dict_mem.
  induction d as [|[k' v'] d IH]; simpl List.length; simpl dict_get.
  - reflexivity.
  - destruct (String.eqb k k'); simpl List.length; [lia|].
    destruct (dict_get k d); lia.
Qed.

Lemma dict_len_del k d :
  dict_len (dict_del k d) =
  dict_len d - (if dict_mem k d then 1 else 0).
Proof.
  unfold dict_len, dict_mem.
  induction d as [|[k' v'] d IH]; simpl List.length; simpl dict_get.
  - reflexivity.
  - destruct (String.eqb k k'); simpl List.length; [lia|].
    destruct (dict_get k d); lia.
Qed.

Lemma dict_values_set_Forall (P : V -> Prop) k v d :
  Forall P (dict_values d) -> P v -> Forall P (dict_values (dict_set k v d)).
Proof.
  unfold dict_values. intros Hd Hv.
  induction d as [|[k' v'] d IH]; simpl.
  - now constructor.
  - inversion Hd as [|? ? Hv' Hd']; subst.
    destruct (String.eqb k k'); simpl; constructor; auto.
Qed.

Lemma dict_values_del_Forall (P : V -> Prop) k d :
  Forall P (dict_values d) -> Forall P (dict_values (dict_del k d)).
Proof.
  unfold dict_values. intros Hd.
  induction d as [|[k' v'] d IH]; simpl; [constructor|].
  inversion Hd as [|? ? Hv' Hd']; subst.
  destruct (String.eqb k k'); simpl; [assumption|].
  constructor; auto.
Qed.

End DictMoreFacts.

(** ** The catalog methods *)

Section CatalogMoreFacts.
Context {num : Type} `{Number num}.
Implicit Types (self : ComputerInventory num) (c : Computer num)
  (cid k : string) (delta : Z) (now : datetime).

Lemma inventory_eta self :
  {| computers := computers self; sales_history := sales_history self |} = self.
Proof. now destruct self. Qed.

Lemma set_stock_same c : set_stock (stock c) c = c.
Proof. now destruct c. Qed.

Lemma set_stock_twice (n m : Z) c : set_stock m (set_stock n c) = set_stock m c.
Proof. reflexivity. Qed.

(** The report's stock total is the item-by-item sum; its count the length. *)
Lemma get_inventory_report_stock self :
  stocks_fit self ->
  exists rep,
    get_inventory_report self = (Ok rep, self) /\
    total_computers rep = dict_len (computers self) /\
    total_stock rep = stock_total (dict_values (computers self)).
Proof.
  intros Hfit. eexists.
  split; [now apply get_inventory_report_run|]. simpl.
  split; [reflexivity|].
  apply sum_int_stock_total.
Qed.

(** A report that returns says these two things; it returns only when
    every stock can be promoted. *)
Lemma get_inventory_report_returned self rep self' :
  get_inventory_report self = (Ok rep, self') ->
  self' = self /\
  total_computers rep = dict_len (computers self) /\
  total_stock rep = stock_total (dict_values (computers self)).
Proof.
  intros Hrun.
  assert (Hfit : stocks_fit self).
  { unfold stocks_fit.
    destruct (Forall_dec (fun c : Computer num => num_fits (stock c) = true)
                (fun c => bool_dec (num_fits (stock c)) true)
                (dict_values (computers self))) as [Hyes|Hno]; [assumption|].
    rewrite (get_inventory_report_overflow self Hno) in Hrun.
    discriminate Hrun. }
  destruct (get_inventory_report_stock self Hfit) as (rep0 & Hrun0 & Hn & Hs).
  rewrite Hrun0 in Hrun. injection Hrun as <- <-. auto.
Qed.

Lemma add_computer_stocks_fit c self :
  stocks_fit self -> num_fits (stock c) = true ->
  stocks_fit (snd (add_computer c self)).
Proof.
  intros Hfit Hc. unfold stocks_fit. simpl.
  now apply dict_values_set_Forall.
Qed.

Lemma remove_computer_stocks_fit cid self :
  stocks_fit self -> stocks_fit (snd (remove_computer cid self)).
Proof.
  intros Hfit. unfold stocks_fit, remove_computer, bind, read.
  destruct (dict_mem cid (computers self)); simpl; [|assumption].
  now apply dict_values_del_Forall.
Qed.

Lemma stock_total_app (l l' : list (Computer num)) :
  stock_total (l ++ l') = stock_total l + stock_total l'.
Proof. induction l as [|c l IH]; simpl; lia. Qed.

Lemma stock_total_set (d : dict (Computer num)) k c :
  stock_total (dict_values (dict_set k c d)) =
  stock_total (dict_values d) + stock c
  - match dict_get k d with Some old => stock old | None => 0 end.
Proof.
  unfold dict_values.
  induction d as [|[k' c'] d IH]; simpl; [lia|].
  destruct (String.eqb k k'); simpl; [lia|].
  rewrite IH. lia.
Qed.

Lemma stock_total_del (d : dict (Computer num)) k :
  stock_total (dict_values (dict_del k d)) =
  stock_total (dict_values d)
  - match dict_get k d with Some old => stock old | None => 0 end.
Proof.
  unfold dict_values.
  induction d as [|[k' c'] d IH]; simpl; [lia|].
  destruct (String.eqb k k'); simpl; [lia|].
  rewrite IH. lia.
Qed.

(** Writing a stock keeps every item under its own [id]. *)
Lemma well_keyed_set_stock cid (n : Z) c self :
  well_keyed self ->
  dict_get cid (computers self) = Some c ->
  well_keyed {| computers := dict_set cid (set_stock n c) (computers self);
                sales_history := sales_history self |}.
Proof.
  intros Hkeyed Hg k c'. simpl.
  destruct (string_dec k cid) as [->|Hne].
  - rewrite dict_get_set_same. intros [= <-]. simpl. now apply Hkeyed.
  - rewrite dict_get_set_other by assumption. apply Hkeyed.
Qed.

Lemma init_well_keyed : well_keyed (@init num).
Proof. intros k c. simpl. discriminate. Qed.

Lemma add_computer_well_keyed c self :
  well_keyed self -> well_keyed (snd (add_computer c self)).
Proof.
  intros Hkeyed k c'. simpl.
  destruct (string_dec k (id c)) as [->|Hne].
  - rewrite dict_get_set_same. now intros [= <-].
  - rewrite dict_get_set_other by assumption. apply Hkeyed.
Qed.

Lemma process_sale_well_keyed now cid (qty : Z) (ty : SaleType) self :
  well_keyed self -> well_keyed (snd (process_sale now cid qty ty self)).
Proof.
  intros Hkeyed.
  destruct (process_sale_cases now cid qty ty self)
    as [Hg|c Hg Hlt|c Hg Hle Hfit|c Hg Hle Hfit]; simpl; try assumption.
  intros k c'. simpl.
  destruct (string_dec k cid) as [->|Hne].
  - rewrite dict_get_set_same. intros [= <-]. simpl. now apply Hkeyed.
  - rewrite dict_get_set_other by assumption. apply Hkeyed.
Qed.

(** X1: [add_computer] never raises; afterwards the computer is what a
    lookup under its [id] gives, whatever was stored there before, every
    other identifier gives what it gave, and the ledger is the same. *)
Theorem add_computer_lookup c self :
  exists self',
    add_computer c self = (Ok tt, self') /\
    dict_get (id c) (computers self') = Some c /\
    (forall k, k <> id c ->
       dict_get k (computers self') = dict_get k (computers self)) /\
    sales_history self' = sales_history self.
Proof.
  eexists. split; [reflexivity|]. simpl.
  split; [apply dict_get_set_same|].
  split; [|reflexivity].
  intros k Hne. now apply dict_get_set_other.
Qed.

(** X2: in the inventory report, [add_computer] with an [id] that is new
    makes one item more and adds the computer's stock to the total stock;
    with an [id] that is there it replaces the item: the number of items
    stays and the total stock changes by the new stock less the old.
    (The reports return when the stocks, the new one too, can be promoted
    to a price.) *)
Theorem add_computer_report c self :
  stocks_fit self ->
  num_fits (stock c) = true ->
  exists rep rep' self',
    get_inventory_report self = (Ok rep, self) /\
    add_computer c self = (Ok tt, self') /\
    get_inventory_report self' = (Ok rep', self') /\
    match dict_get (id c) (computers self) with
    | None =>
        total_computers rep' = total_computers rep + 1 /\
        total_stock rep' = total_stock rep + stock c
    | Some old =>
        total_computers rep' = total_computers rep /\
        total_stock rep' = total_stock rep + stock c - stock old
    end.
Proof.
  intros Hfit Hc.
  destruct (get_inventory_report_stock self Hfit) as (rep & Hrep & Hn & Hs).
  destruct (get_inventory_report_stock (snd (add_computer c self))
              (add_computer_stocks_fit c self Hfit Hc))
    as (rep' & Hrep' & Hn' & Hs').
  exists rep, rep', (snd (add_computer c self)).
  split; [assumption|]. split; [reflexivity|]. split; [assumption|].
  rewrite Hn, Hs, Hn', Hs'. simpl.
  rewrite dict_len_set, stock_total_set. unfold dict_mem.
  destruct (dict_get (id c) (computers self)); split; lia.
Qed.

Lemma remove_computer_run cid self :
  remove_computer cid self =
    (Ok tt, {| computers := dict_del cid (computers self);
               sales_history := sales_history self |}).
Proof.
  unfold remove_computer, bind, read, dict_mem.
  destruct (dict_get cid (computers self)) eqn:Hg; simpl.
  - reflexivity.
  - rewrite dict_del_absent by assumption. now rewrite inventory_eta.
Qed.

(** X3: [remove_computer] never raises.  For an identifier that is absent
    it changes nothing.  In any case the identifier is absent afterwards,
    every other identifier gives what it gave, the ledger is the same, and
    the inventory report counts one item less and the removed item's stock
    less when the identifier was there.  (The reports return when the
    stocks can be promoted to a price.) *)
Theorem remove_computer_effect cid self :
  keys_unique self ->
  stocks_fit self ->
  exists rep rep' self',
    remove_computer cid self = (Ok tt, self') /\
    dict_get cid (computers self') = None /\
    (forall k, k <> cid ->
       dict_get k (computers self') = dict_get k (computers self)) /\
    sales_history self' = sales_history self /\
    get_inventory_report self = (Ok rep, self) /\
    get_inventory_report self' = (Ok rep', self') /\
    match dict_get cid (computers self) with
    | None => self' = self
    | Some old =>
        total_computers rep' = total_computers rep - 1 /\
        total_stock rep' = total_stock rep - stock old
    end.
Proof.
  intros Hu Hfit.
  destruct (get_inventory_report_stock self Hfit) as (rep & Hrep & Hn & Hs).
  destruct (get_inventory_report_stock (snd (remove_computer cid self))
              (remove_computer_stocks_fit cid self Hfit))
    as (rep' & Hrep' & Hn' & Hs').
  exists rep, rep', (snd (remove_computer cid self)).
  rewrite remove_computer_run in *. simpl in *.
  split; [reflexivity|].
  split; [now apply dict_get_del_same|].
  split; [intros k Hne; now apply dict_get_del_other|].
  split; [reflexivity|].
  split; [assumption|]. split; [assumption|].
  rewrite Hn, Hs, Hn', Hs', dict_len_del, stock_total_del. unfold dict_mem.
  destruct (dict_get cid (computers self)) eqn:Hg.
  - split; lia.
  - rewrite dict_del_absent by assumption. apply inventory_eta.
Qed.

(** X4: adding a computer under an identifier that is new and removing
    that identifier again gives back the inventory as it was, order of
    the catalog included. *)
Theorem add_then_remove_restores c self :
  dict_get (id c) (computers self) = None ->
  remove_computer (id c) (snd (add_computer c self)) = (Ok tt, self).
Proof.
  intros Hg. rewrite remove_computer_run. simpl.
  rewrite dict_set_absent_last by assumption.
  rewrite dict_del_last by assumption.
  now rewrite inventory_eta.
Qed.

Lemma update_stock_zero_state cid self :
  snd (update_stock cid 0 self) = self.
Proof.
  destruct (dict_get cid (computers self)) as [c|] eqn:Hg.
  - rewrite (update_stock_present cid 0 self c Hg). simpl.
    rewrite Z.add_0_r, set_stock_same.
    rewrite dict_set_same_value by assumption. apply inventory_eta.
  - now rewrite (update_stock_absent cid 0 self Hg).
Qed.

Lemma update_stock_then cid (d1 d2 : Z) self :
  update_stock cid d2 (snd (update_stock cid d1 self)) =
  update_stock cid (d1 + d2) self.
Proof.
  destruct (dict_get cid (computers self)) as [c|] eqn:Hg.
  - rewrite (update_stock_present cid d1 self c Hg).
    rewrite (update_stock_present cid (d1 + d2) self c Hg).
    rewrite (update_stock_present cid d2 _ (set_stock (stock c + d1) c))
      by (simpl; apply dict_get_set_same).
    simpl. rewrite dict_set_set, Z.add_assoc. reflexivity.
  - rewrite (update_stock_absent cid d1 self Hg). simpl.
    rewrite (update_stock_absent cid d2 self Hg).
    now rewrite (update_stock_absent cid (d1 + d2) self Hg).
Qed.

(** X5: two stock adjustments of one item in a row are the adjustment by
    the sum of the two deltas (same result, same state), and an adjustment
    followed by the opposite one gives back the inventory as it was. *)
Theorem update_stock_composes cid (d1 d2 : Z) self :
  update_stock cid d2 (snd (update_stock cid d1 self)) =
    update_stock cid (d1 + d2) self /\
  snd (update_stock cid (- d1) (snd (update_stock cid d1 self))) = self.
Proof.
  split; [apply update_stock_then|].
  rewrite update_stock_then, Z.add_opp_diag_r.
  apply update_stock_zero_state.
Qed.

(** X6: in a catalog that holds every item under its own [id] (so that
    no object is there under two keys), [update_stock] never raises and
    touches nothing but the stock of the named item: the identifiers of
    the catalog and their order, what every other identifier gives, and
    the ledger are as before; the item itself keeps all its other
    attributes, and the catalog still holds every item under its [id]. *)
Theorem update_stock_frame cid delta self :
  well_keyed self ->
  exists b self',
    update_stock cid delta self = (Ok b, self') /\
    well_keyed self' /\
    dict_keys (computers self') = dict_keys (computers self) /\
    sales_history self' = sales_history self /\
    (forall k, k <> cid ->
       dict_get k (computers self') = dict_get k (computers self)) /\
    (forall c', dict_get cid (computers self') = Some c' ->
       exists c, dict_get cid (computers self) = Some c /\
                 same_but_stock c c').
Proof.
  intros Hkeyed.
  destruct (dict_get cid (computers self)) as [c|] eqn:Hg.
  - rewrite (update_stock_present cid delta self c Hg).
    do 2 eexists.
    split; [reflexivity|].
    split; [now apply well_keyed_set_stock|]. simpl.
    split; [now apply dict_keys_set_present with c|].
    split; [reflexivity|].
    split; [intros k Hne; now apply dict_get_set_other|].
    intros c'. rewrite dict_get_set_same. intros [= <-].
    exists c. split; reflexivity.
  - rewrite (update_stock_absent cid delta self Hg).
    do 2 eexists. split; [reflexivity|]. split; [exact Hkeyed|].
    repeat split; trivial.
    intros c' Hc'. congruence.
Qed.

End CatalogMoreFacts.

(** ** Sales and the catalog *)

Section SaleMoreFacts.
Context {num : Type} `{Number num}.
Implicit Types (self : ComputerInventory num) (c : Computer num)
  (r : SaleRecord num) (cid k : string) (qty : Z) (ty : SaleType)
  (now : datetime).

(** X7: in a catalog that holds every item under its own [id] (so that
    no object is there under two keys), a call of [process_sale], whether
    it returns or raises, leaves the identifiers of the catalog and their
    order as they were, leaves every other item as it was, and changes
    nothing of the named item but its stock (no price, no description);
    the catalog still holds every item under its [id]. *)
Theorem process_sale_frame now cid qty ty self :
  well_keyed self ->
  exists res self',
    process_sale now cid qty ty self = (res, self') /\
    well_keyed self' /\
    dict_keys (computers self') = dict_keys (computers self) /\
    (forall k, k <> cid ->
       dict_get k (computers self') = dict_get k (computers self)) /\
    (forall c', dict_get cid (computers self') = Some c' ->
       exists c, dict_get cid (computers self) = Some c /\
                 same_but_stock c c').
Proof.
  intros Hkeyed.
  pose proof (process_sale_well_keyed now cid qty ty self Hkeyed) as Hkeyed'.
  revert Hkeyed'.
  destruct (process_sale_cases now cid qty ty self)
    as [Hg|c Hg Hlt|c Hg Hle Hfit|c Hg Hle Hfit];
    intros Hkeyed'; do 2 eexists; (split; [reflexivity|]);
    (split; [exact Hkeyed'|]); simpl.
  - repeat split; trivial. intros c' Hc'. congruence.
  - repeat split; trivial. intros c' Hc'. exists c'.
    split; [assumption|]. unfold same_but_stock.
    now rewrite set_stock_same.
  - repeat split; trivial. intros c' Hc'. exists c'.
    split; [assumption|]. unfold same_but_stock.
    now rewrite set_stock_same.
  - split; [now apply dict_keys_set_present with c|].
    split; [intros k Hne; now apply dict_get_set_other|].
    intros c'. rewrite dict_get_set_same. intros [= <-].
    exists c. split; [assumption | reflexivity].
Qed.

(** X8: on the catalog a sale that returns does what [update_stock] does
    with the opposite of the quantity; the ledger entry is what it adds. *)
Theorem process_sale_is_guarded_update now cid qty ty self r self' :
  process_sale now cid qty ty self = (Ok r, self') ->
  update_stock cid (- qty) self =
    (Ok true, {| computers := computers self';
                 sales_history := sales_history self |}) /\
  sales_history self' = (sales_history self ++ [r])%list.
Proof.
  intros Hrun. revert Hrun.
  destruct (process_sale_cases now cid qty ty self) as [Hg|c Hg Hlt|c Hg Hle Hfit|c Hg Hle Hfit];
    intros Hrun; try discriminate Hrun.
  injection Hrun as <- <-.
  rewrite (update_stock_present cid (- qty) self c Hg).
  split; reflexivity.
Qed.

(** One step of a run of sales. *)
Lemma process_sales_step (call : SaleCall) calls self self' :
  process_sales (call :: calls) self = Some self' ->
  exists c,
    dict_get (call_id call) (computers self) = Some c /\
    call_quantity call <= stock c /\
    num_fits (call_quantity call) = true /\
    process_sales calls
      (after_sale (call_id call) (call_quantity call) c
         (record_of (call_now call) (call_id call) (call_quantity call)
            (call_type call) c) self) = Some self'.
Proof.
  simpl. unfold do_sale.
  destruct (process_sale_cases (call_now call) (call_id call)
              (call_quantity call) (call_type call) self)
    as [Hg|c Hg Hlt|c Hg Hle Hfit|c Hg Hle Hfit]; try discriminate.
  intros Hrun. now exists c.
Qed.

(** X9: in a catalog that holds every item under its own [id] (so that
    no object is there under two keys), a run of sales that all return
    takes exactly the units asked for off the total stock of the inventory
    report, and leaves the number of items as it was, whenever the
    inventory report returns before the run and after it. *)
Theorem process_sales_conserve_stock (calls : list SaleCall) self self'
    rep rep' :
  well_keyed self ->
  process_sales calls self = Some self' ->
  get_inventory_report self = (Ok rep, self) ->
  get_inventory_report self' = (Ok rep', self') ->
  total_computers rep' = total_computers rep /\
  total_stock rep' = total_stock rep - calls_quantity calls.
Proof.
  intros _ Hrun Hrep Hrep'.
  apply get_inventory_report_returned in Hrep as (_ & Hn & Hs).
  apply get_inventory_report_returned in Hrep' as (_ & Hn' & Hs').
  rewrite Hn, Hs, Hn', Hs'. clear Hn Hs Hn' Hs' rep rep'.
  revert self Hrun.
  induction calls as [|call calls IH]; intros self Hrun.
  - injection Hrun as <-. simpl. split; [reflexivity | lia].
  - apply process_sales_step in Hrun as (c & Hg & Hle & Hfit & Hrun).
    destruct (IH _ Hrun) as [IHn IHs].
    rewrite IHn, IHs. simpl.
    rewrite dict_len_set, stock_total_set. unfold dict_mem.
    rewrite Hg. simpl. split; lia.
Qed.

(** X10: a run of sales that all return appends to the ledger one record
    per call, in the order of the calls, each with the clock reading, the
    identifier, the quantity and the sale type of its call and with a
    total that is its unit price times its quantity; what the ledger held
    stays in front, untouched. *)
Theorem process_sales_ledger (calls : list SaleCall) self self' :
  process_sales calls self = Some self' ->
  exists sold,
    sales_history self' = (sales_history self ++ sold)%list /\
    map record_fields sold = map call_fields calls /\
    Forall priced_consistently sold.
Proof.
  revert self.
  induction calls as [|call calls IH]; intros self Hrun.
  - injection Hrun as <-. exists []. rewrite app_nil_r. repeat split. constructor.
  - apply process_sales_step in Hrun as (c & Hg & Hle & Hfit & Hrun).
    destruct (IH _ Hrun) as (sold & Hled & Hfields & Hpriced).
    exists (record_of (call_now call) (call_id call) (call_quantity call)
              (call_type call) c :: sold).
    split; [|split].
    + rewrite Hled. simpl. now rewrite <- app_assoc.
    + simpl. now rewrite Hfields.
    + constructor; [reflexivity | assumption].
Qed.

(** X11: two sales of one item that return one after the other can be made
    as one sale of the two quantities together, if that quantity is an
    [int] that can be promoted to a price: it returns from the same
    starting state and leaves the same catalog. *)
Theorem process_sale_in_two now1 now2 now cid (q1 q2 : Z) ty1 ty2 ty
    self r1 self1 r2 self2 :
  process_sale now1 cid q1 ty1 self = (Ok r1, self1) ->
  process_sale now2 cid q2 ty2 self1 = (Ok r2, self2) ->
  num_fits (q1 + q2) = true ->
  exists r self',
    process_sale now cid (q1 + q2) ty self = (Ok r, self') /\
    computers self' = computers self2.
Proof.
  intros Hrun1 Hrun2 Hsum. revert Hrun1.
  destruct (process_sale_cases now1 cid q1 ty1 self) as [Hg|c Hg Hlt|c Hg Hle Hfit|c Hg Hle Hfit];
    intros Hrun1; try discriminate Hrun1.
  injection Hrun1 as <- <-. revert Hrun2.
  destruct (process_sale_cases now2 cid q2 ty2
              (after_sale cid q1 c (record_of now1 cid q1 ty1 c) self))
    as [Hg2|c2 Hg2 Hlt2|c2 Hg2 Hle2 Hfit2|c2 Hg2 Hle2 Hfit2];
    intros Hrun2; try discriminate Hrun2.
  injection Hrun2 as <- <-.
  simpl in Hg2. rewrite dict_get_set_same in Hg2. injection Hg2 as <-.
  simpl in Hle2.
  rewrite (process_sale_enough now cid (q1 + q2) ty self c Hg)
    by (lia || assumption).
  do 2 eexists. split; [reflexivity|]. simpl.
  rewrite dict_set_set.
  replace (stock c - (q1 + q2)) with (stock c - q1 - q2) by lia.
  reflexivity.
Qed.

End SaleMoreFacts.

(** ** Any sequence of calls *)

Section ProgramFacts.
Context {num : Type} `{Number num}.
Implicit Types (self : ComputerInventory num) (c : Computer num)
  (call : Call num) (calls : list (Call num)) (cid k : string).

Lemma get_sales_report_state (start : option datetime) self :
  snd (get_sales_report start self) = self.
Proof. reflexivity. Qed.

Lemma call_state_keys_unique call self :
  keys_unique self -> keys_unique (call_state call self).
Proof.
  intros Hu. destruct call; simpl call_state.
  - now apply add_computer_keys_unique.
  - now apply remove_computer_keys_unique.
  - now apply update_stock_keys_unique.
  - now apply process_sale_keys_unique.
  - now rewrite get_inventory_report_state.
  - exact Hu.
Qed.

Lemma add_computer_keeps_stock_nonneg c self :
  0 <= stock c -> stock_nonneg self ->
  stock_nonneg (snd (add_computer c self)).
Proof.
  intros Hc Hinv k c'. simpl.
  destruct (string_dec k (id c)) as [->|Hne].
  - rewrite dict_get_set_same. now intros [= <-].
  - rewrite dict_get_set_other by assumption. apply Hinv.
Qed.

Lemma remove_computer_keeps_stock_nonneg cid self :
  keys_unique self -> stock_nonneg self ->
  stock_nonneg (snd (remove_computer cid self)).
Proof.
  intros Hu Hinv k c'. rewrite remove_computer_run. simpl.
  destruct (string_dec k cid) as [->|Hne].
  - now rewrite dict_get_del_same.
  - rewrite dict_get_del_other by assumption. apply Hinv.
Qed.

Lemma update_stock_keeps_stock_nonneg cid (delta : Z) self :
  0 <= delta -> stock_nonneg self ->
  stock_nonneg (snd (update_stock cid delta self)).
Proof.
  intros Hd Hinv.
  destruct (dict_get cid (computers self)) as [c|] eqn:Hg.
  - rewrite (update_stock_present cid delta self c Hg). simpl.
    intros k c'. simpl.
    destruct (string_dec k cid) as [->|Hne].
    + rewrite dict_get_set_same. intros [= <-]. simpl.
      specialize (Hinv cid c Hg). lia.
    + rewrite dict_get_set_other by assumption. apply Hinv.
  - now rewrite (update_stock_absent cid delta self Hg).
Qed.

Lemma call_state_stock_nonneg call self :
  no_manual_deficit call -> keys_unique self -> stock_nonneg self ->
  stock_nonneg (call_state call self).
Proof.
  intros Hsafe Hu Hinv. destruct call; simpl call_state; simpl in Hsafe.
  - now apply add_computer_keeps_stock_nonneg.
  - now apply remove_computer_keeps_stock_nonneg.
  - now apply update_stock_keeps_stock_nonneg.
  - now apply process_sale_keeps_stock_nonneg.
  - now rewrite get_inventory_report_state.
  - exact Hinv.
Qed.

(** X12: whatever methods are called, in whatever order and with sales
    that return or raise, no stock is negative afterwards, as long as no
    stock was negative before, no computer is added with a negative stock
    and [update_stock] is given no negative quantity. *)
Theorem run_calls_stock_nonneg calls self :
  Forall no_manual_deficit calls ->
  keys_unique self ->
  stock_nonneg self ->
  stock_nonneg (run_calls calls self).
Proof.
  unfold run_calls. intros Hsafe. revert self.
  induction Hsafe as [|call calls Hcall Hcalls IH]; intros self Hu Hinv; simpl.
  - assumption.
  - apply IH.
    + now apply call_state_keys_unique.
    + now apply call_state_stock_nonneg.
Qed.

(** What one call does to the ledger. *)
Lemma call_state_ledger call self :
  sales_history (call_state call self) = sales_history self \/
  exists now cid qty ty c,
    call = ProcessSale now cid qty ty /\
    dict_get cid (computers self) = Some c /\
    qty <= stock c /\
    sales_history (call_state call self) =
      (sales_history self ++ [record_of now cid qty ty c])%list.
Proof.
  destruct call as [c|cid|cid qty|now cid qty ty| |start]; simpl call_state.
  - now left.
  - rewrite remove_computer_run. now left.
  - left. destruct (dict_get cid (computers self)) as [c|] eqn:Hg.
    + now rewrite (update_stock_present cid qty self c Hg).
    + now rewrite (update_stock_absent cid qty self Hg).
  - destruct (process_sale_cases now cid qty ty self) as [Hg|c Hg Hlt|c Hg Hle Hfit|c Hg Hle Hfit].
    + now left.
    + now left.
    + now left.
    + right. now exists now, cid, qty, ty, c.
  - left. now rewrite get_inventory_report_state.
  - now left.
Qed.

Lemma record_of_known_type now cid (qty : Z) ty c :
  known_type (record_of now cid qty ty c).
Proof. unfold known_type. destruct ty; simpl; auto. Qed.

(** X13: whatever methods are called, every record of the ledger stays
    one whose total is its unit price times its quantity and whose sale
    type is one of the two values of [SaleType], if that held before; it
    does for the empty ledger of a new inventory. *)
Theorem run_calls_ledger_sound calls self :
  Forall (fun r => priced_consistently r /\ known_type r)
         (sales_history self) ->
  Forall (fun r => priced_consistently r /\ known_type r)
         (sales_history (run_calls calls self)).
Proof.
  unfold run_calls. revert self.
  induction calls as [|call calls IH]; intros self Hall; simpl; [assumption|].
  apply IH.
  destruct (call_state_ledger call self)
    as [Hsame | (now & cid & qty & ty & c & _ & _ & _ & Happ)].
  - now rewrite Hsame.
  - rewrite Happ. apply Forall_app. split; [assumption|].
    constructor; [|constructor].
    split; [reflexivity | apply record_of_known_type].
Qed.

Lemma is_sale_done_spec call self :
  (is_sale_done call self = false /\
   sales_history (call_state call self) = sales_history self) \/
  (is_sale_done call self = true /\
   exists r, sales_history (call_state call self) =
             (sales_history self ++ [r])%list).
Proof.
  destruct call as [c|cid|cid qty|now cid qty ty| |start];
    try (left; split; [reflexivity|]); simpl.
  - reflexivity.
  - now rewrite remove_computer_run.
  - destruct (dict_get cid (computers self)) as [c|] eqn:Hg.
    + now rewrite (update_stock_present cid qty self c Hg).
    + now rewrite (update_stock_absent cid qty self Hg).
  - destruct (process_sale_cases now cid qty ty self) as [Hg|c Hg Hlt|c Hg Hle Hfit|c Hg Hle Hfit];
      simpl.
    + now left.
    + now left.
    + now left.
    + right. split; [reflexivity|]. now eexists.
  - now rewrite get_inventory_report_state.
  - reflexivity.
Qed.

(** X14: the ledger only grows, and only at its end: after any sequence of
    calls it is the ledger from before followed by one record for each
    sale that returned; no other method, and no sale that raises, adds,
    drops or changes a record. *)
Theorem run_calls_ledger_grows calls self :
  exists sold,
    sales_history (run_calls calls self) = (sales_history self ++ sold)%list /\
    List.length sold = count_sales_done calls self.
Proof.
  unfold run_calls. revert self.
  induction calls as [|call calls IH]; intros self; simpl.
  - exists []. now rewrite app_nil_r.
  - destruct (IH (call_state call self)) as (sold & Hled & Hlen).
    destruct (is_sale_done_spec call self) as [[Hb Hsame] | [Hb [r Happ]]];
      rewrite Hb.
    + exists sold. now rewrite Hled, Hsame.
    + exists (r :: sold). rewrite Hled, Happ, <- app_assoc. simpl.
      now rewrite Hlen.
Qed.

End ProgramFacts.

(** ** The sales report and the ledger *)

Section ReportMoreFacts.
Context {num : Type} `{Number num}.
Implicit Types (self : ComputerInventory num) (r s : SaleRecord num)
  (l : list (SaleRecord num)) (start now : datetime) (call : Call num).

Lemma records_since_app start l l' :
  records_since start (l ++ l') =
  (records_since start l ++ records_since start l')%list.
Proof.
  induction l as [|s l IH]; simpl; [reflexivity|].
  rewrite IH. now destruct (start ?= date s)%N.
Qed.

Lemma records_since_none start l :
  Forall (fun s => (date s < start)%N) l -> records_since start l = [].
Proof.
  induction 1 as [|s l Hs Hl IH]; simpl; [reflexivity|].
  rewrite IH.
  destruct (N.compare_spec start (date s)); trivial; lia.
Qed.

(** X15: a sale that returns shows in every later sales report whose
    start time is not after the clock reading of the sale, as one sale
    more, and in no report that starts after it. *)
Theorem get_sales_report_after_sale now (cid : string) (qty : Z)
    (ty : SaleType) self r self' start :
  process_sale now cid qty ty self = (Ok r, self') ->
  exists rep rep',
    get_sales_report (Some start) self = (Ok rep, self) /\
    get_sales_report (Some start) self' = (Ok rep', self') /\
    total_sales rep' =
      total_sales rep + (if datetime_ge now start then 1 else 0).
Proof.
  intros Hrun. revert Hrun.
  destruct (process_sale_cases now cid qty ty self) as [Hg|c Hg Hlt|c Hg Hle Hfit|c Hg Hle Hfit];
    intros Hrun; try discriminate Hrun.
  injection Hrun as <- <-.
  do 2 eexists.
  split; [apply get_sales_report_run|].
  split; [apply get_sales_report_run|]. simpl.
  rewrite records_since_app, length_app. simpl.
  unfold datetime_ge. rewrite N.leb_compare.
  destruct (start ?= now)%N; simpl; lia.
Qed.

(** X16: called without a start time, [get_sales_report] leaves nothing
    out: it counts every record of the ledger and sums the totals of all
    its wholesale and of all its retail records. *)
Theorem get_sales_report_whole_ledger self :
  exists rep,
    get_sales_report None self = (Ok rep, self) /\
    total_sales rep = Z.of_nat (List.length (sales_history self)) /\
    sum_is (map total_price
              (records_of_type WHOLESALE (sales_history self)))
           (wholesale_revenue rep) /\
    sum_is (map total_price
              (records_of_type RETAIL (sales_history self)))
           (retail_revenue rep) /\
    total_revenue rep = num_add (wholesale_revenue rep) (retail_revenue rep).
Proof.
  destruct (get_sales_report_default self) as [Hdef Hall].
  rewrite Hdef, get_sales_report_run, Hall.
  eexists. split; [reflexivity|]. simpl.
  split; [reflexivity|].
  split; [apply sum_num_is|].
  split; [apply sum_num_is | reflexivity].
Qed.

(** X17: when every record of the ledger is older than the start time
    (and so on an empty ledger) the sales report does not fail: it counts
    no sale, and its two revenues are the 0 that [sum] starts from. *)
Theorem get_sales_report_nothing_since start self :
  Forall (fun s => (date s < start)%N) (sales_history self) ->
  get_sales_report (Some start) self =
    (Ok {| total_sales := 0;
           wholesale_revenue := num_of_int 0;
           retail_revenue := num_of_int 0;
           total_revenue := num_add (num_of_int 0) (num_of_int 0) |},
     self).
Proof.
  intros Hold.
  rewrite get_sales_report_run, (records_since_none start _ Hold).
  reflexivity.
Qed.

(** X18: the sales report depends on the ledger alone: adding, replacing
    or removing a computer, adjusting a stock, and asking for a report
    leave every sales report what it was, also for the sales of a computer
    that is no longer in the catalog. *)
Theorem get_sales_report_ignores_catalog call self (start : option datetime) :
  match call with
  | ProcessSale _ _ _ _ => True
  | _ =>
      fst (get_sales_report start (call_state call self)) =
      fst (get_sales_report start self)
  end.
Proof.
  assert (Hled : forall self1 self2,
             sales_history self1 = sales_history self2 ->
             fst (get_sales_report start self1) =
             fst (get_sales_report start self2)).
  { intros self1 self2 Heq. unfold get_sales_report, bind, read, ret. simpl.
    now rewrite Heq. }
  destruct call as [c|cid|cid qty|now cid qty ty| |st];
    [apply Hled | apply Hled | apply Hled | exact I | apply Hled | apply Hled];
    simpl call_state.
  - reflexivity.
  - now rewrite remove_computer_run.
  - destruct (dict_get cid (computers self)) as [c|] eqn:Hg.
    + now rewrite (update_stock_present cid qty self c Hg).
    + now rewrite (update_stock_absent cid qty self Hg).
  - now rewrite get_inventory_report_state.
  - reflexivity.
Qed.

End ReportMoreFacts.

(** ** With whole-unit prices *)

Lemma fold_revenue_total (l : list (SaleRecord Z)) (acc : Z) :
  fold_left Z.add (map total_price l) acc = acc + revenue_total l.
Proof.
  revert acc. induction l as [|r l IH]; intros acc; simpl; [lia|].
  rewrite IH. lia.
Qed.

Lemma revenue_total_by_type (l : list (SaleRecord Z)) :
  Forall known_type l ->
  revenue_total (records_of_type WHOLESALE l)
  + revenue_total (records_of_type RETAIL l) = revenue_total l.
Proof.
  induction 1 as [|r l Hr Hl IH]; simpl; [reflexivity|].
  destruct Hr as [Hr|Hr]; rewrite Hr; simpl; lia.
Qed.

Lemma records_since_known_type (start : datetime) (l : list (SaleRecord Z)) :
  Forall known_type l -> Forall known_type (records_since start l).
Proof.
  induction 1 as [|r l Hr Hl IH]; simpl; [constructor|].
  destruct (start ?= date r)%N; auto.
Qed.

(** X19: with prices in whole units, on a ledger whose records are all of
    one of the two sale types (as every ledger the methods build is), the
    total revenue of the sales report is the sum of the totals of all the
    records taken, each counted once. *)
Theorem get_sales_report_revenue (start : datetime)
    (self : ComputerInventory Z) :
  Forall known_type (sales_history self) ->
  exists rep,
    get_sales_report (Some start) self = (Ok rep, self) /\
    total_revenue rep =
      revenue_total (records_since start (sales_history self)).
Proof.
  intros Hknown. eexists. split; [apply get_sales_report_run|]. simpl.
  unfold sum_num. simpl. rewrite !fold_revenue_total.
  rewrite <- (revenue_total_by_type _
                (records_since_known_type start _ Hknown)).
  lia.
Qed.

(** * The further theorems at the example of [main] *)

Lemma sample_well_keyed : well_keyed sample_inventory.
Proof.
  apply (add_computer_well_keyed sample_computer init), init_well_keyed.
Qed.

Lemma busy_well_keyed : well_keyed busy_inventory.
Proof.
  intros k c. simpl.
  destruct (String.eqb k "LP001") eqn:E1.
  - apply String.eqb_eq in E1. now intros [= <-].
  - destruct (String.eqb k "DT002") eqn:E2; [|discriminate].
    apply String.eqb_eq in E2. now intros [= <-].
Qed.

Lemma sample_stocks_fit : stocks_fit sample_inventory.
Proof. repeat constructor. Qed.

Lemma add_computer_report_witness :
  stocks_fit sample_inventory /\
  num_fits (stock second_computer) = true /\
  exists rep rep' self',
    get_inventory_report sample_inventory = (Ok rep, sample_inventory) /\
    add_computer second_computer sample_inventory = (Ok tt, self') /\
    get_inventory_report self' = (Ok rep', self') /\
    total_computers rep' = total_computers rep + 1 /\
    total_stock rep' = total_stock rep + 2.
Proof.
  split; [apply sample_stocks_fit|]. split; [reflexivity|].
  exact (@add_computer_report Z Number_Z second_computer sample_inventory
           sample_stocks_fit eq_refl).
Defined.

Lemma update_stock_frame_witness :
  well_keyed busy_inventory /\
  exists b self',
    update_stock "LP001" 5 busy_inventory = (Ok b, self') /\
    dict_keys (computers self') = ["LP001"; "DT002"] /\
    sales_history self' = sales_history busy_inventory /\
    dict_get "DT002" (computers self') = Some second_computer.
Proof.
  split; [apply busy_well_keyed|].
  destruct (@update_stock_frame Z "LP001" 5 busy_inventory busy_well_keyed)
    as (b & self' & Hrun & _ & Hkeys & Hled & Hother & _).
  exists b, self'.
  split; [exact Hrun|]. split; [exact Hkeys|]. split; [exact Hled|].
  apply Hother. discriminate.
Defined.

Lemma process_sale_frame_witness :
  well_keyed busy_inventory /\
  exists res self',
    process_sale t1 "LP001" 1 RETAIL busy_inventory = (res, self') /\
    dict_keys (computers self') = ["LP001"; "DT002"] /\
    dict_get "DT002" (computers self') = Some second_computer.
Proof.
  split; [apply busy_well_keyed|].
  destruct (@process_sale_frame Z Number_Z t1 "LP001" 1 RETAIL busy_inventory
              busy_well_keyed)
    as (res & self' & Hrun & _ & Hkeys & Hother & _).
  exists res, self'.
  split; [exact Hrun|]. split; [exact Hkeys|].
  apply Hother. discriminate.
Defined.

Lemma get_sales_report_whole_ledger_witness :
  exists rep,
    get_sales_report None busy_inventory = (Ok rep, busy_inventory) /\
    total_sales rep = 3 /\
    wholesale_revenue rep = 3400 /\
    retail_revenue rep = 1200.
Proof.
  destruct (@get_sales_report_whole_ledger Z Number_Z busy_inventory)
    as (rep & Hrun & Hn & Hw & Hr & _).
  exists rep. split; [exact Hrun|]. split; [exact Hn|]. split.
  - exact (sum_is_unique _ _ _ Hw (sum_num_is _)).
  - exact (sum_is_unique _ _ _ Hr (sum_num_is _)).
Defined.

Lemma remove_computer_effect_witness :
  keys_unique sample_inventory /\
  stocks_fit sample_inventory /\
  exists rep rep' self',
    remove_computer "LP001" sample_inventory = (Ok tt, self') /\
    dict_get "LP001" (computers self') = None /\
    sales_history self' = sales_history sample_inventory /\
    get_inventory_report sample_inventory = (Ok rep, sample_inventory) /\
    get_inventory_report self' = (Ok rep', self') /\
    total_computers rep' = total_computers rep - 1 /\
    total_stock rep' = total_stock rep - 10.
Proof.
  split; [apply sample_keys_unique|]. split; [apply sample_stocks_fit|].
  destruct (@remove_computer_effect Z Number_Z "LP001" sample_inventory
              sample_keys_unique sample_stocks_fit)
    as (rep & rep' & self' & Hrun & Hgone & _ & Hled & Hrep & Hrep' & Hn & Hs).
  exists rep, rep', self'.
  split; [exact Hrun|]. split; [exact Hgone|]. split; [exact Hled|].
  split; [exact Hrep|]. split; [exact Hrep'|].
  split; [exact Hn | exact Hs].
Defined.

Lemma add_then_remove_restores_witness :
  dict_get (id sample_computer) (computers (@init Z)) = None /\
  remove_computer (id sample_computer) (snd (add_computer sample_computer init))
    = (Ok tt, init).
Proof.
  split; [reflexivity|].
  apply (@add_then_remove_restores Z sample_computer init). reflexivity.
Defined.

Lemma process_sale_is_guarded_update_witness :
  process_sale t0 "LP001" 3 WHOLESALE sample_inventory =
    (Ok first_sale_record, inventory_after_first_sale) /\
  update_stock "LP001" (-3) sample_inventory =
    (Ok true, {| computers := computers inventory_after_first_sale;
                 sales_history := sales_history sample_inventory |}) /\
  sales_history inventory_after_first_sale =
    (sales_history sample_inventory ++ [first_sale_record])%list.
Proof.
  split; [reflexivity|].
  apply (@process_sale_is_guarded_update Z Number_Z t0 "LP001" 3 WHOLESALE
           sample_inventory first_sale_record inventory_after_first_sale).
  reflexivity.
Defined.

Lemma process_sales_conserve_stock_witness :
  well_keyed sample_inventory /\
  process_sales sample_calls sample_inventory = Some inventory_after_main /\
  get_inventory_report sample_inventory =
    (Ok {| total_computers := 1; total_stock := 10;
           total_wholesale_value := 8000; total_retail_value := 12000 |},
     sample_inventory) /\
  get_inventory_report inventory_after_main =
    (Ok {| total_computers := 1; total_stock := 6;
           total_wholesale_value := 4800; total_retail_value := 7200 |},
     inventory_after_main) /\
  (1 = 1 /\ 6 = 10 - calls_quantity sample_calls).
Proof.
  split; [apply sample_well_keyed|]. split; [reflexivity|].
  split; [reflexivity|]. split; [reflexivity|].
  exact (@process_sales_conserve_stock Z Number_Z sample_calls
           sample_inventory inventory_after_main _ _
           sample_well_keyed eq_refl eq_refl eq_refl).
Defined.

Lemma process_sales_ledger_witness :
  process_sales sample_calls sample_inventory = Some inventory_after_main /\
  exists sold,
    sales_history inventory_after_main =
      (sales_history sample_inventory ++ sold)%list /\
    map record_fields sold = map call_fields sample_calls /\
    Forall priced_consistently sold.
Proof.
  split; [reflexivity|].
  apply (@process_sales_ledger Z Number_Z sample_calls
           sample_inventory inventory_after_main).
  reflexivity.
Defined.

Lemma process_sale_in_two_witness :
  process_sale t0 "LP001" 3 WHOLESALE sample_inventory =
    (Ok first_sale_record, inventory_after_first_sale) /\
  process_sale t1 "LP001" 1 RETAIL inventory_after_first_sale =
    (Ok second_sale_record, inventory_after_main) /\
  exists r self',
    process_sale t1 "LP001" (3 + 1) RETAIL sample_inventory = (Ok r, self') /\
    computers self' = computers inventory_after_main.
Proof.
  split; [reflexivity|]. split; [reflexivity|].
  apply (@process_sale_in_two Z Number_Z t0 t1 t1 "LP001" 3 1
           WHOLESALE RETAIL RETAIL sample_inventory
           first_sale_record inventory_after_first_sale
           second_sale_record inventory_after_main); reflexivity.
Defined.

Lemma run_calls_stock_nonneg_witness :
  Forall no_manual_deficit sample_program /\
  keys_unique (@init Z) /\
  stock_nonneg (@init Z) /\
  stock_nonneg (run_calls sample_program init).
Proof.
  assert (Hsafe : Forall no_manual_deficit sample_program).
  { repeat first [ apply Forall_nil
                 | apply Forall_cons; [simpl; first [lia | exact I]|] ]. }
  assert (Hinv : stock_nonneg (@init Z)).
  { intros k c. simpl. discriminate. }
  split; [exact Hsafe|]. split; [apply init_keys_unique|].
  split; [exact Hinv|].
  apply (@run_calls_stock_nonneg Z Number_Z sample_program init Hsafe
           (@init_keys_unique Z) Hinv).
Defined.

Lemma run_calls_ledger_sound_witness :
  Forall (fun r : SaleRecord Z => priced_consistently r /\ known_type r)
         (sales_history (@init Z)) /\
  Forall (fun r : SaleRecord Z => priced_consistently r /\ known_type r)
         (sales_history (run_calls sample_program init)).
Proof.
  assert (Hnil : Forall (fun r : SaleRecord Z =>
                           priced_consistently r /\ known_type r)
                        (sales_history (@init Z))) by constructor.
  split; [exact Hnil|].
  apply (@run_calls_ledger_sound Z Number_Z sample_program init Hnil).
Defined.

Lemma get_sales_report_after_sale_witness :
  process_sale t1 "LP001" 1 RETAIL inventory_after_first_sale =
    (Ok second_sale_record, inventory_after_main) /\
  exists rep rep',
    get_sales_report (Some t1) inventory_after_first_sale =
      (Ok rep, inventory_after_first_sale) /\
    get_sales_report (Some t1) inventory_after_main =
      (Ok rep', inventory_after_main) /\
    total_sales rep' = total_sales rep + 1.
Proof.
  split; [reflexivity|].
  apply (@get_sales_report_after_sale Z Number_Z t1 "LP001" 1 RETAIL
           inventory_after_first_sale second_sale_record
           inventory_after_main t1).
  reflexivity.
Defined.

Lemma get_sales_report_nothing_since_witness :
  Forall (fun s : SaleRecord Z => (date s < t1 + 1)%N)
         (sales_history inventory_after_main) /\
  get_sales_report (Some (t1 + 1)%N) inventory_after_main =
    (Ok {| total_sales := 0; wholesale_revenue := 0; retail_revenue := 0;
           total_revenue := 0 |},
     inventory_after_main).
Proof.
  assert (Hold : Forall (fun s : SaleRecord Z => (date s < t1 + 1)%N)
                        (sales_history inventory_after_main)).
  { repeat constructor; simpl; unfold t0, t1; lia. }
  split; [exact Hold|].
  apply (@get_sales_report_nothing_since Z Number_Z (t1 + 1)%N
           inventory_after_main Hold).
Defined.

Lemma get_sales_report_revenue_witness :
  Forall known_type (sales_history inventory_after_main) /\
  exists rep,
    get_sales_report (Some t0) inventory_after_main =
      (Ok rep, inventory_after_main) /\
    total_revenue rep = 3600.
Proof.
  assert (Hknown : Forall known_type (sales_history inventory_after_main)).
  { apply Forall_cons; [left; reflexivity|].
    apply Forall_cons; [right; reflexivity|]. apply Forall_nil. }
  split; [exact Hknown|].
  apply (get_sales_report_revenue t0 inventory_after_main Hknown).
Defined.
